(** * Workday: a shallow embedding of the workday calendar

    The development follows the C++ sources of the repository:
    [Date] (Date.h, Date.cpp), [TimeUtils] (TimeUtils.h/.cpp),
    [GregorianCalendar] (GregorianCalendar.h/.cpp) and [WorkdayCalendar]
    (WorkdayCalendar.h/.cpp).

    Conventions.
    - A C++ [int] is a [Z]; every [+], [-] and [*] of the source is written
      with its 32-bit two's-complement wrap-around ([int_add], [int_sub],
      [int_mul]); [/] and [%] are the truncating [Z.quot] and [Z.rem].
      [long] is 32 bits wide as well (the README builds with Visual Studio
      on Windows, an LLP64 platform).
    - A C++ [float] is an IEEE-754 binary32 value, a [spec_float] with
      precision 24 and maximal exponent 128.
    - A computation either returns, or hits undefined behaviour
      ([Fault]), or is still inside a [while] loop when its fuel is
      used up ([Diverge]).
    - [std::set<std::string>] and [std::set<std::pair<int,int>>] are
      [gset]s. *)

From Stdlib Require Import ZArith Lia Bool List String Ascii.
From Stdlib Require Import DecimalString SpecFloat.
From Stdlib Require DecimalZ.
From stdpp Require Import base option list gmap strings.

Local Open Scope Z_scope.

(* ===================================================================== *)
(** ** Machine integers *)
(* ===================================================================== *)

Module MachineInt.

Definition int_min : Z := -2147483648.
Definition int_max : Z := 2147483647.

(** Two's-complement reduction of a mathematical integer to 32 bits. *)
Definition wrap (z : Z) : Z := (z + 2147483648) mod 4294967296 - 2147483648.

Definition in_int (z : Z) : Prop := int_min <= z <= int_max.

Definition int_add (a b : Z) : Z := wrap (a + b).
Definition int_sub (a b : Z) : Z := wrap (a - b).
Definition int_mul (a b : Z) : Z := wrap (a * b).

End MachineInt.
Import MachineInt.

(* ===================================================================== *)
(** ** Outcomes of a computation *)
(* ===================================================================== *)

(** The ways in which the C++ code can leave defined behaviour. *)
Inductive fault : Type :=
| OutOfBounds          (* read outside an array *)
| DivideByZero         (* integer division or remainder by zero *)
| ConversionOverflow.  (* float to integer conversion out of range *)

Inductive outcome (A : Type) : Type :=
| Ret (a : A)
| Fault (f : fault)
| Diverge.

Arguments Ret {A} a.
Arguments Fault {A} f.
Arguments Diverge {A}.

#[export] Instance outcome_ret : MRet outcome := fun A a => Ret a.
#[export] Instance outcome_bind : MBind outcome := fun A B f m =>
  match m with
  | Ret a => f a
  | Fault e => Fault e
  | Diverge => Diverge
  end.

(** A computation halts when it is not stuck in a loop. *)
Definition halts {A} (o : outcome A) : Prop := o <> Diverge.

(** Run [f] [n] times in sequence: the shape of [while (k-- > 0) f(x);]. *)
Fixpoint repeatM {A} (n : nat) (f : A -> outcome A) (x : A) : outcome A :=
  match n with
  | O => Ret x
  | S n' => x' ← f x; repeatM n' f x'
  end.

(* ===================================================================== *)
(** ** Date (Date.h, Date.cpp) *)
(* ===================================================================== *)

Record Date : Type := mkDate {
  year_ : Z;
  month_ : Z;
  day_ : Z;
  hour_ : Z;
  minute_ : Z
}.

#[export] Instance Date_eq_dec : EqDecision Date.
Proof. solve_decision. Defined.

Module DateOps.

(** [Date::Date()] *)
Definition default : Date := mkDate 0 0 0 0 0.

Definition getYear (d : Date) : Z := year_ d.
Definition getMonth (d : Date) : Z := month_ d.
Definition getDay (d : Date) : Z := day_ d.
Definition getHours (d : Date) : Z := hour_ d.
Definition getMinutes (d : Date) : Z := minute_ d.

(** [Date::getTime] *)
Definition getTime (d : Date) : Z * Z := (hour_ d, minute_ d).

(** [Date::setDate] overwrites all five fields; the receiver's old
    value is dropped, so the state after the call is the new record. *)
Definition setDate (_ : Date) (year month day hour minute : Z) : Date :=
  mkDate year month day hour minute.

(** [Date::generateInvalidDate] *)
Definition generateInvalidDate (_ : Date) : Date :=
  mkDate (-1) (-1) (-1) (-1) (-1).

(** [operator<<(int)]: decimal digits, with a leading minus sign. *)
Definition show_int (z : Z) : string := NilZero.string_of_int (Z.to_int z).

(** [std::setw(w) << std::setfill('0')] with the default right
    adjustment: fill characters go in front of the whole text. *)
Definition setw_fill0 (w : nat) (s : string) : string :=
  String.append (string_of_list_ascii
                   (List.repeat "0"%char (w - String.length s))) s.

(** [Date::getDate]: the text ends in a blank, as in the source. *)
Definition getDate (d : Date) : string :=
  String.append (setw_fill0 4 (show_int (year_ d)))
 (String.append "-"
 (String.append (setw_fill0 2 (show_int (month_ d)))
 (String.append "-"
 (String.append (setw_fill0 2 (show_int (day_ d))) " ")))).

(** [Date::getDateAndTime] *)
Definition getDateAndTime (d : Date) : string :=
  String.append (getDate d)
 (String.append (setw_fill0 2 (show_int (hour_ d)))
 (String.append ":" (setw_fill0 2 (show_int (minute_ d))))).

(** The table [t] of [Date::dayOfWeek]. *)
Definition t : list Z := [0; 3; 2; 5; 0; 3; 5; 1; 4; 6; 2; 4].

(** [t[i]] for a C++ array of twelve entries: the source reads it with
    no bounds check, and reading outside it is undefined behaviour. *)
Definition t_at (i : Z) : outcome Z :=
  if (0 <=? i) && (i <? Z.of_nat (List.length t))
  then Ret (List.nth (Z.to_nat i) t 0)
  else Fault OutOfBounds.

(** [Date::dayOfWeek] *)
Definition dayOfWeek (d : Date) : outcome Z :=
  let y := year_ d in
  let y := int_sub y (if month_ d <? 3 then 1 else 0) in
  off ← t_at (int_sub (month_ d) 1);
  Ret (Z.rem (int_add (int_add (int_add (int_sub (int_add y (Z.quot y 4))
                                                 (Z.quot y 100))
                                        (Z.quot y 400))
                               off)
                      (day_ d)) 7).

End DateOps.
Import DateOps.

(* ===================================================================== *)
(** ** TimeUtils (TimeUtils.h, TimeUtils.cpp) *)
(* ===================================================================== *)

Module TimeUtils.

Definition HOURS_IN_DAY : Z := 24.
Definition MINUTES_IN_HOUR : Z := 60.
Definition MINUTES_IN_DAY : Z := MINUTES_IN_HOUR * HOURS_IN_DAY.

(** [TimeUtils::convertToMinutes] *)
Definition convertToMinutes (time_i : Z * Z) : Z :=
  let '(hours, minutes) := time_i in
  int_add (int_mul hours MINUTES_IN_HOUR) minutes.

(** [TimeUtils::subtractTime] *)
Definition subtractTime (larger smaller : Z * Z) : Z * Z :=
  let diff := int_sub (convertToMinutes larger) (convertToMinutes smaller) in
  let diff := if diff <? 0 then int_add diff MINUTES_IN_DAY else diff in
  (Z.quot diff MINUTES_IN_HOUR, Z.rem diff MINUTES_IN_HOUR).

(** [TimeUtils::addTime] *)
Definition addTime (left right : Z * Z) : Z * Z :=
  let total := int_add (convertToMinutes left) (convertToMinutes right) in
  (Z.quot total MINUTES_IN_HOUR, Z.rem total MINUTES_IN_HOUR).

(** [TimeUtils::subtractMinutes] *)
Definition subtractMinutes (larger smaller : Z) : Z * Z :=
  let diff := int_sub larger smaller in
  let diff := if diff <? 0 then int_add diff MINUTES_IN_DAY else diff in
  (Z.quot diff MINUTES_IN_HOUR, Z.rem diff MINUTES_IN_HOUR).

(** [TimeUtils::addMinutes] *)
Definition addMinutes (left right : Z) : Z * Z :=
  let total := int_add left right in
  (Z.quot total MINUTES_IN_HOUR, Z.rem total MINUTES_IN_HOUR).

End TimeUtils.

(* ===================================================================== *)
(** ** GregorianCalendar (GregorianCalendar.h, GregorianCalendar.cpp) *)
(* ===================================================================== *)

Record GregorianCalendar : Type := mkCalendar {
  holidays_ : gset string;
  recurring_holidays_ : gset (Z * Z)
}.

Module Gregorian.

(** [GregorianCalendar::GregorianCalendar()]: both sets start empty. *)
Definition new : GregorianCalendar := mkCalendar ∅ ∅.

(** [GregorianCalendar::isLeapYear] *)
Definition isLeapYear (year : Z) : bool :=
  if negb (Z.rem year 4 =? 0) then false
  else if negb (Z.rem year 100 =? 0) then true
  else if Z.rem year 400 =? 0 then true
  else false.

(** [GregorianCalendar::daysInMonth] *)
Definition daysInMonth (year month : Z) : Z :=
  match month with
  | 1 | 3 | 5 | 7 | 8 | 10 | 12 => 31
  | 4 | 6 | 9 | 11 => 30
  | 2 => if isLeapYear year then 29 else 28
  | _ => 30
  end.

(** [GregorianCalendar::isValidDate] *)
Definition isValidDate (date : Date) : bool :=
  let year := getYear date in
  let month := getMonth date in
  let day := getDay date in
  let hour := getHours date in
  let minute := getMinutes date in
  if (year <? 0) || (month <? 1) || (12 <? month) || (day <? 1)
     || (daysInMonth year month <? day) then false
  else if (hour <? 0) || (24 <=? hour) || (minute <? 0) || (60 <=? minute)
  then false
  else true.

(** [GregorianCalendar::setHoliday] *)
Definition setHoliday (cal : GregorianCalendar) (date : Date)
  : GregorianCalendar :=
  if isValidDate date then
    mkCalendar ({[ getDate date ]} ∪ holidays_ cal) (recurring_holidays_ cal)
  else cal.

(** [GregorianCalendar::setRecurringHoliday] *)
Definition setRecurringHoliday (cal : GregorianCalendar) (date : Date)
  : GregorianCalendar :=
  if isValidDate date then
    mkCalendar (holidays_ cal)
               ({[ (getMonth date, getDay date) ]} ∪ recurring_holidays_ cal)
  else cal.

(** [GregorianCalendar::isHoliday] *)
Definition isHoliday (cal : GregorianCalendar) (date : Date) : outcome bool :=
  day_of_week ← dayOfWeek date;
  if (day_of_week =? 0) || (day_of_week =? 6) then Ret true
  else if bool_decide (getDate date ∈ holidays_ cal) then Ret true
  else if bool_decide ((getMonth date, getDay date) ∈ recurring_holidays_ cal)
  then Ret true
  else Ret false.

(** [GregorianCalendar::addDay] *)
Definition addDay (date_i : Date) : Date :=
  let newYear := getYear date_i in
  let newMonth := getMonth date_i in
  let newDay := int_add (getDay date_i) 1 in
  if daysInMonth newYear newMonth <? newDay then
    let newDay := 1 in
    let newMonth := int_add newMonth 1 in
    if 12 <? newMonth then
      let newMonth := 1 in
      let newYear := int_add newYear 1 in
      setDate date_i newYear newMonth newDay
              (getHours date_i) (getMinutes date_i)
    else
      setDate date_i newYear newMonth newDay
              (getHours date_i) (getMinutes date_i)
  else
    setDate date_i newYear newMonth newDay
            (getHours date_i) (getMinutes date_i).

(** [GregorianCalendar::removeDay] *)
Definition removeDay (date : Date) : Date :=
  let newYear := getYear date in
  let newMonth := getMonth date in
  let newDay := int_sub (getDay date) 1 in
  if newDay <? 1 then
    let newMonth := int_sub newMonth 1 in
    if newMonth <? 1 then
      let newMonth := 12 in
      let newYear := int_sub newYear 1 in
      let newDay := daysInMonth newYear newMonth in
      setDate date newYear newMonth newDay (getHours date) (getMinutes date)
    else
      let newDay := daysInMonth newYear newMonth in
      setDate date newYear newMonth newDay (getHours date) (getMinutes date)
  else
    setDate date newYear newMonth newDay (getHours date) (getMinutes date).

End Gregorian.

(* ===================================================================== *)
(** ** The C++ [float] and its conversions *)
(* ===================================================================== *)

Module Float32.

Definition prec : Z := 24.
Definition emax : Z := 128.

(** The binary32 value nearest to [m * 2^e]. *)
Definition of_Z_pow2 (m e : Z) : spec_float := binary_normalize prec emax m e false.

(** Implicit conversion of an integer to [float]. *)
Definition of_long (z : Z) : spec_float := of_Z_pow2 z 0.

Definition zero : spec_float := S754_zero false.

Definition ltb (x y : spec_float) : bool := SFltb x y.
Definition neg (x : spec_float) : spec_float := SFopp x.
Definition mul (x y : spec_float) : spec_float := SFmul prec emax x y.

Definition long_min : Z := -2147483648.
Definition long_max : Z := 2147483647.

(** [static_cast<long>(x)]: truncation toward zero; the conversion is
    undefined when the truncated value does not fit, and for infinities
    and NaN. *)
Definition static_cast_long (x : spec_float) : outcome Z :=
  match x with
  | S754_zero _ => Ret 0
  | S754_finite s m e =>
      let v := cond_Zopp s (Z.shiftl (Z.pos m) e) in
      if (long_min <=? v) && (v <=? long_max) then Ret v
      else Fault ConversionOverflow
  | _ => Fault ConversionOverflow
  end.

End Float32.

(* ===================================================================== *)
(** ** WorkdayCalendar (WorkdayCalendar.h, WorkdayCalendar.cpp) *)
(* ===================================================================== *)

(** The three [unique_ptr<Date>] members may be null; [calendar_] is
    allocated by the constructor and never reset, so it is always
    present and the null tests on it in the source never fire. *)
Record WorkdayCalendar : Type := mkWorkday {
  workday_start_ : option Date;
  workday_stop_ : option Date;
  workday_duration_ : option Date;
  calendar_ : GregorianCalendar
}.

Module Workday.

Import TimeUtils Gregorian.

Definition WORKWEEK_DURATION : Z := 5.

(** [WorkdayCalendar::WorkdayCalendar()] *)
Definition new : WorkdayCalendar := mkWorkday None None None Gregorian.new.

(** [WorkdayCalendar::updateWorkingDuration], called with both
    pointers set. *)
Definition updateWorkingDuration (start stop : Date) : Date :=
  let '(hours, mins) := subtractTime (getTime stop) (getTime start) in
  mkDate 0 0 0 hours mins.

(** [WorkdayCalendar::setWorkdayStartAndStop] *)
Definition setWorkdayStartAndStop (w : WorkdayCalendar) (start stop : Date)
  : WorkdayCalendar :=
  if negb (isValidDate start) then
    mkWorkday None None (workday_duration_ w) (calendar_ w)
  else if negb (isValidDate stop) then
    mkWorkday None None (workday_duration_ w) (calendar_ w)
  else
    let start' := mkDate (getYear start) (getMonth start) (getDay start)
                         (getHours start) (getMinutes start) in
    let stop' := mkDate (getYear stop) (getMonth stop) (getDay stop)
                        (getHours stop) (getMinutes stop) in
    mkWorkday (Some start') (Some stop')
              (Some (updateWorkingDuration start' stop')) (calendar_ w).

(** [WorkdayCalendar::setHoliday] *)
Definition setHoliday (w : WorkdayCalendar) (date : Date) : WorkdayCalendar :=
  mkWorkday (workday_start_ w) (workday_stop_ w) (workday_duration_ w)
            (Gregorian.setHoliday (calendar_ w) date).

(** [WorkdayCalendar::setRecurringHoliday] *)
Definition setRecurringHoliday (w : WorkdayCalendar) (date : Date)
  : WorkdayCalendar :=
  mkWorkday (workday_start_ w) (workday_stop_ w) (workday_duration_ w)
            (Gregorian.setRecurringHoliday (calendar_ w) date).

(** [WorkdayCalendar::isHoliday] *)
Definition isHoliday (w : WorkdayCalendar) (date_i : Date) : outcome bool :=
  Gregorian.isHoliday (calendar_ w) date_i.

(** [WorkdayCalendar::getWorkdayStart], [getWorkdayStop] *)
Definition getWorkdayStart (w : WorkdayCalendar) : option Date := workday_start_ w.
Definition getWorkdayStop (w : WorkdayCalendar) : option Date := workday_stop_ w.

(** One calendar day in the direction of travel. *)
Definition stepDay (decrement : bool) (d : Date) : Date :=
  if decrement then removeDay d else addDay d.

(** The [while (calendar_->isHoliday(startDate))] loop of
    [incrementWorkDay]. *)
Fixpoint skipHolidays (fuel : nat) (cal : GregorianCalendar)
         (decrement : bool) (startDate : Date) : outcome Date :=
  match fuel with
  | O => Diverge
  | S fuel' =>
      h ← Gregorian.isHoliday cal startDate;
      if h : bool then skipHolidays fuel' cal decrement (stepDay decrement startDate)
      else Ret startDate
  end.

(** [WorkdayCalendar::incrementWorkDay] *)
Definition incrementWorkDay (fuel : nat) (w : WorkdayCalendar)
           (startDate : Date) (decrement : bool) : outcome Date :=
  skipHolidays fuel (calendar_ w) decrement (stepDay decrement startDate).

(** [WorkdayCalendar::incrementWorkWeek] *)
Definition incrementWorkWeek (fuel : nat) (w : WorkdayCalendar)
           (startDate : Date) (decrement : bool) : outcome Date :=
  repeatM (Z.to_nat WORKWEEK_DURATION)
          (fun d => incrementWorkDay fuel w d decrement) startDate.

(** The time of day of [t] put on the date of [current]. *)
Definition atTimeOf (current t : Date) : Date :=
  setDate current (getYear current) (getMonth current) (getDay current)
          (getHours t) (getMinutes t).

(** [WorkdayCalendar::addRemainingMinutes], with [workday_start_] and
    [workday_stop_] set. *)
Definition addRemainingMinutes (fuel : nat) (w : WorkdayCalendar)
           (start stop : Date) (minutes : Z) (current : Date) : outcome Date :=
  let stop_minutes := convertToMinutes (getTime stop) in
  let start_minutes := convertToMinutes (getTime start) in
  let current_minutes := convertToMinutes (getTime current) in
  current ←
    (if stop_minutes <=? current_minutes then
       current ← incrementWorkDay fuel w current false;
       Ret (atTimeOf current start)
     else if current_minutes <? start_minutes then
       Ret (atTimeOf current start)
     else Ret current);
  let current_minutes := convertToMinutes (getTime current) in
  if int_add current_minutes minutes <=? stop_minutes then
    let '(hours, mins) := addMinutes current_minutes minutes in
    Ret (setDate current (getYear current) (getMonth current)
                 (getDay current) hours mins)
  else
    current ← incrementWorkDay fuel w current false;
    let remaining_minutes :=
      int_sub (int_add current_minutes minutes) stop_minutes in
    let '(hours, mins) := addMinutes start_minutes remaining_minutes in
    Ret (setDate current (getYear current) (getMonth current)
                 (getDay current) hours mins).

(** [WorkdayCalendar::removeRemainingMinutes] *)
Definition removeRemainingMinutes (fuel : nat) (w : WorkdayCalendar)
           (start stop : Date) (minutes : Z) (current : Date) : outcome Date :=
  let stop_minutes := convertToMinutes (getTime stop) in
  let start_minutes := convertToMinutes (getTime start) in
  let current_minutes := convertToMinutes (getTime current) in
  current ←
    (if stop_minutes <=? current_minutes then
       Ret (atTimeOf current stop)
     else if current_minutes <? start_minutes then
       current ← incrementWorkDay fuel w current true;
       Ret (atTimeOf current stop)
     else Ret current);
  let current_minutes := convertToMinutes (getTime current) in
  if start_minutes <=? int_sub current_minutes minutes then
    let '(hours, mins) := subtractMinutes current_minutes minutes in
    Ret (setDate current (getYear current) (getMonth current)
                 (getDay current) hours mins)
  else
    current ← incrementWorkDay fuel w current true;
    let remaining_minutes :=
      int_sub start_minutes (int_sub current_minutes minutes) in
    let '(hours, mins) := subtractMinutes stop_minutes remaining_minutes in
    Ret (setDate current (getYear current) (getMonth current)
                 (getDay current) hours mins).

(** The "move to first workday" loop of [getWorkdayIncrement]. *)
Fixpoint moveToFirstWorkday (fuel : nat) (cal : GregorianCalendar)
         (start stop : Date) (decrement : bool) (current : Date)
  : outcome Date :=
  match fuel with
  | O => Diverge
  | S fuel' =>
      h ← Gregorian.isHoliday cal current;
      if h : bool then
        if decrement then
          moveToFirstWorkday fuel' cal start stop decrement
                             (atTimeOf (removeDay current) stop)
        else
          moveToFirstWorkday fuel' cal start stop decrement
                             (atTimeOf (addDay current) start)
      else Ret current
  end.

(** [long / long] and [long % long]: a zero divisor is undefined. *)
Definition long_div (a b : Z) : outcome Z :=
  if b =? 0 then Fault DivideByZero else Ret (wrap (Z.quot a b)).
Definition long_rem (a b : Z) : outcome Z :=
  if b =? 0 then Fault DivideByZero else Ret (Z.rem a b).

(** [WorkdayCalendar::getWorkdayIncrement].  Nothing in the body throws
    a C++ exception, so the [catch] clause is not entered. *)
Definition getWorkdayIncrement (fuel : nat) (w : WorkdayCalendar)
           (startDate : Date) (incrementInWorkdays : spec_float)
  : outcome Date :=
  if negb (isValidDate startDate) then Ret (generateInvalidDate startDate)
  else
    match workday_start_ w, workday_stop_ w, workday_duration_ w with
    | Some start, Some stop, Some duration =>
        let decrement := Float32.ltb incrementInWorkdays (Float32.of_long 0) in
        let incrementInWorkdays :=
          if decrement then Float32.neg incrementInWorkdays
          else incrementInWorkdays in
        let current := startDate in
        let workdayInMinutes := convertToMinutes (getTime duration) in
        workDay_IncrementInMinutes ←
          Float32.static_cast_long
            (Float32.mul incrementInWorkdays (Float32.of_long workdayInMinutes));
        workDays ← long_div workDay_IncrementInMinutes workdayInMinutes;
        let workWeeks := Z.quot workDays WORKWEEK_DURATION in
        current ← moveToFirstWorkday fuel (calendar_ w) start stop decrement current;
        current ← repeatM (Z.to_nat workWeeks)
                          (fun d => incrementWorkWeek fuel w d decrement) current;
        let remainingWorkDays := Z.rem workDays WORKWEEK_DURATION in
        current ← repeatM (Z.to_nat remainingWorkDays)
                          (fun d => incrementWorkDay fuel w d decrement) current;
        remaining_minutes ← long_rem workDay_IncrementInMinutes workdayInMinutes;
        if decrement then
          removeRemainingMinutes fuel w start stop remaining_minutes current
        else
          addRemainingMinutes fuel w start stop remaining_minutes current
    | _, _, _ => Ret (generateInvalidDate startDate)
    end.

End Workday.

(* ===================================================================== *)
(** ** Reachable engine states *)
(* ===================================================================== *)

(** The states a [WorkdayCalendar] object can be in: the constructor's,
    and whatever the three mutators make of a reachable one. *)
Inductive reachable : WorkdayCalendar -> Prop :=
| reach_new : reachable Workday.new
| reach_setWorkdayStartAndStop w start stop :
    reachable w -> reachable (Workday.setWorkdayStartAndStop w start stop)
| reach_setHoliday w date :
    reachable w -> reachable (Workday.setHoliday w date)
| reach_setRecurringHoliday w date :
    reachable w -> reachable (Workday.setRecurringHoliday w date).

(* ===================================================================== *)
(** ** The calendar as the specification words it *)
(* ===================================================================== *)

Module Spec.

(** [(y%4==0 && y%100!=0) || y%400==0] *)
Definition isLeapYear (y : Z) : bool :=
  ((Z.rem y 4 =? 0) && negb (Z.rem y 100 =? 0)) || (Z.rem y 400 =? 0).

(** The standard 30/31-day table, February by the leap-year rule. *)
Definition monthTable (y : Z) : list Z :=
  [31; if isLeapYear y then 29 else 28; 31; 30; 31; 30; 31; 31; 30; 31; 30; 31].

Definition daysInMonth (y m : Z) : Z :=
  if 1 <=? m then List.nth (Z.to_nat (m - 1)) (monthTable y) 0 else 0.

(** The invariant of a valid date value. *)
Definition validDate (d : Date) : Prop :=
  0 <= year_ d /\
  1 <= month_ d <= 12 /\
  1 <= day_ d <= daysInMonth (year_ d) (month_ d) /\
  0 <= hour_ d < 24 /\
  0 <= minute_ d < 60.

(** Number of leap years among the years [0 .. y-1] (and, below zero,
    minus the number among [y .. -1]). *)
Definition leapYearsBefore (y : Z) : Z :=
  (y + 3) / 4 - (y + 99) / 100 + (y + 399) / 400.

(** Days of year [y] that lie before its month [m]. *)
Definition daysBeforeMonth (y m : Z) : Z :=
  List.fold_right Z.add 0 (List.firstn (Z.to_nat (m - 1)) (monthTable y)).

(** The position of a date on the line of calendar days: day 0 is
    January 1 of year 0 in the proleptic Gregorian calendar. *)
Definition dayNumber (d : Date) : Z :=
  365 * year_ d + leapYearsBefore (year_ d)
  + daysBeforeMonth (year_ d) (month_ d) + (day_ d - 1).

(** Two date values on the same calendar day (the time of day may
    differ). *)
Definition sameDay (a b : Date) : Prop :=
  year_ a = year_ b /\ month_ a = month_ b /\ day_ a = day_ b.

(** [c] is on the [k]-th calendar day of the way that starts at [d0]
    and goes forward, or backward when [dec] is set. *)
Definition onDay (dec : bool) (d0 : Date) (k : nat) (c : Date) : Prop :=
  sameDay c (Nat.iter k (Workday.stepDay dec) d0).

(** A month and a day of the month that occur in some year. *)
Definition monthDay (c : Date) : Prop :=
  1 <= month_ c <= 12 /\
  1 <= day_ c <= Gregorian.daysInMonth 2024 (month_ c).

End Spec.

(* ===================================================================== *)
(** ** Configurations used in the examples *)
(* ===================================================================== *)

Module Examples.

Import Workday.

(** Workday 08:00 to 16:00, as in the test suite. *)
Definition startWorkday : Date := mkDate 2004 1 1 8 0.
Definition stopWorkday : Date := mkDate 2004 1 1 16 0.
Definition eightToFour : WorkdayCalendar :=
  setWorkdayStartAndStop new startWorkday stopWorkday.

(** Start and stop at the same time of day: a workday of zero minutes. *)
Definition zeroLength : WorkdayCalendar :=
  setWorkdayStartAndStop new startWorkday startWorkday.

(** Every day of the leap year 2024. *)
Definition everyDayOf2024 : list Date :=
  List.flat_map
    (fun m => List.map (fun dd => mkDate 2024 m dd 0 0)
                       (seqZ 1 (Gregorian.daysInMonth 2024 m)))
    (seqZ 1 12).

(** All 366 (month, day) pairs registered as recurring holidays. *)
Definition alwaysHoliday : WorkdayCalendar :=
  List.fold_left setRecurringHoliday everyDayOf2024 eightToFour.

(** The [float] literals of the examples. *)
Definition f_0_25 : spec_float := Float32.of_Z_pow2 1 (-2).
Definition f_0_5 : spec_float := Float32.of_Z_pow2 1 (-1).
Definition f_1 : spec_float := Float32.of_long 1.

End Examples.

(* ===================================================================== *)
(** * Properties *)
(* ===================================================================== *)

Import TimeUtils.

(** ** Machine integers *)

Section MachineIntFacts.

Lemma wrap_small z : in_int z -> wrap z = z.
Proof.
  unfold in_int, int_min, int_max, wrap. intros H.
  rewrite Z.mod_small by lia. lia.
Qed.

Lemma wrap_in_int z : in_int (wrap z).
Proof.
  unfold in_int, int_min, int_max, wrap.
  pose proof (Z.mod_pos_bound (z + 2147483648) 4294967296). lia.
Qed.

Lemma int_add_small a b : in_int (a + b) -> int_add a b = a + b.
Proof. apply wrap_small. Qed.

Lemma int_sub_small a b : in_int (a - b) -> int_sub a b = a - b.
Proof. apply wrap_small. Qed.

Lemma int_mul_small a b : in_int (a * b) -> int_mul a b = a * b.
Proof. apply wrap_small. Qed.

End MachineIntFacts.

(** Rewrite the wrapped operations whose exact result is in range. *)
Ltac unwrap :=
  repeat first
    [ rewrite int_add_small by (unfold in_int, int_min, int_max; lia)
    | rewrite int_sub_small by (unfold in_int, int_min, int_max; lia)
    | rewrite int_mul_small by (unfold in_int, int_min, int_max; lia) ].

(** Decide the integer comparisons that occur in the goal. *)
Ltac cases_cmp :=
  repeat (match goal with
          | |- context [?a <? ?b] => destruct (Z.ltb_spec a b)
          | |- context [?a <=? ?b] => destruct (Z.leb_spec a b)
          | |- context [?a =? ?b] => destruct (Z.eqb_spec a b)
          end; cbn [orb andb negb]).

(** ** The Gregorian rules *)

Section GregorianFacts.

Import Gregorian.

Lemma isLeapYear_rule y : isLeapYear y = Spec.isLeapYear y.
Proof.
  unfold isLeapYear, Spec.isLeapYear.
  destruct (Z.eqb_spec (Z.rem y 4) 0) as [H4|H4],
           (Z.eqb_spec (Z.rem y 100) 0) as [H100|H100],
           (Z.eqb_spec (Z.rem y 400) 0) as [H400|H400];
    cbn; try reflexivity; exfalso;
    Z.to_euclidean_division_equations; lia.
Qed.

Lemma month_cases m :
  1 <= m <= 12 ->
  m = 1 \/ m = 2 \/ m = 3 \/ m = 4 \/ m = 5 \/ m = 6 \/
  m = 7 \/ m = 8 \/ m = 9 \/ m = 10 \/ m = 11 \/ m = 12.
Proof. lia. Qed.

Lemma daysInMonth_table y m :
  1 <= m <= 12 -> daysInMonth y m = Spec.daysInMonth y m.
Proof.
  intros Hm. destruct (month_cases m Hm) as
      [->|[->|[->|[->|[->|[->|[->|[->|[->|[->|[->| ->]]]]]]]]]]];
    cbn; rewrite ?isLeapYear_rule; reflexivity.
Qed.

Lemma daysInMonth_bounds y m : 28 <= daysInMonth y m <= 31.
Proof.
  unfold daysInMonth.
  destruct (isLeapYear y); destruct m as [|p|p]; try lia;
    do 5 (try (destruct p as [p|p|]; try lia)).
Qed.

Lemma isValidDate_true d :
  isValidDate d = true <->
  0 <= year_ d /\ 1 <= month_ d <= 12 /\
  1 <= day_ d <= daysInMonth (year_ d) (month_ d) /\
  0 <= hour_ d < 24 /\ 0 <= minute_ d < 60.
Proof.
  unfold isValidDate, getYear, getMonth, getDay, getHours, getMinutes.
  cases_cmp; split; intros; try discriminate; try reflexivity; lia.
Qed.

End GregorianFacts.

(** C5. [isValidDate] is a total boolean function that answers true
    exactly for the dates with year >= 0, month in 1..12, day in
    1..daysInMonth(year, month), hour in 0..23 and minute in 0..59, where
    the day count follows the standard table and February has 29 days
    exactly in the years with (y%4==0 && y%100!=0) || y%400==0.  February
    29 is valid in 2024 and 2000 and invalid in 2023 and 1900. *)
Theorem isValidDate_spec :
  (forall d, Gregorian.isValidDate d = true <-> Spec.validDate d) /\
  (forall y, Gregorian.isLeapYear y = Spec.isLeapYear y) /\
  (forall y, Gregorian.daysInMonth y 2 = if Spec.isLeapYear y then 29 else 28) /\
  (forall h mi, 0 <= h < 24 -> 0 <= mi < 60 ->
     Gregorian.isValidDate (mkDate 2024 2 29 h mi) = true /\
     Gregorian.isValidDate (mkDate 2000 2 29 h mi) = true /\
     Gregorian.isValidDate (mkDate 2023 2 29 h mi) = false /\
     Gregorian.isValidDate (mkDate 1900 2 29 h mi) = false).
Proof.
  split; [|split; [|split]].
  - intros d. rewrite isValidDate_true. unfold Spec.validDate.
    split; intros (Hy & Hm & Hd & Ht); repeat split; try tauto; try lia.
    + rewrite <- daysInMonth_table by lia. lia.
    + rewrite daysInMonth_table by lia. lia.
  - apply isLeapYear_rule.
  - intros y. cbn. now rewrite isLeapYear_rule.
  - intros h mi Hh Hmi. unfold Gregorian.isValidDate.
    cbn [getYear getMonth getDay getHours getMinutes year_ month_ day_ hour_ minute_].
    repeat split.
    all: change (Gregorian.daysInMonth 2024 2) with 29;
         change (Gregorian.daysInMonth 2000 2) with 29;
         change (Gregorian.daysInMonth 2023 2) with 28;
         change (Gregorian.daysInMonth 1900 2) with 28.
    all: cases_cmp; try reflexivity; lia.
Qed.

Lemma isValidDate_spec_witness :
  Gregorian.isValidDate (mkDate 2024 2 29 8 30) = true /\
  Gregorian.isValidDate (mkDate 2000 2 29 8 30) = true /\
  Gregorian.isValidDate (mkDate 2023 2 29 8 30) = false /\
  Gregorian.isValidDate (mkDate 1900 2 29 8 30) = false.
Proof.
  apply (proj2 (proj2 (proj2 isValidDate_spec)) 8 30); lia.
Defined.

(** ** Minute arithmetic *)

(** C8. [addMinutes] divides the 32-bit sum [base + delta] by 60 and
    keeps quotient and remainder, with no reduction modulo 24 hours (the
    hour is 24 or more from 1440 minutes on); [subtractMinutes] takes the
    32-bit difference, adds 1440 to a negative one, and divides by 60.
    When the exact sum or difference fits in an [int], the result
    recombines to it. *)
Theorem addMinutes_subtractMinutes_spec (base delta larger smaller : Z) :
  let total := int_add base delta in
  let diff := int_sub larger smaller in
  addMinutes base delta = (Z.quot total 60, Z.rem total 60) /\
  subtractMinutes larger smaller =
    (if diff <? 0
     then (Z.quot (int_add diff 1440) 60, Z.rem (int_add diff 1440) 60)
     else (Z.quot diff 60, Z.rem diff 60)) /\
  (in_int (base + delta) ->
     addMinutes base delta = (Z.quot (base + delta) 60, Z.rem (base + delta) 60) /\
     60 * fst (addMinutes base delta) + snd (addMinutes base delta) = base + delta /\
     (1440 <= base + delta -> 24 <= fst (addMinutes base delta))) /\
  (in_int (larger - smaller) ->
     subtractMinutes larger smaller =
       (if larger - smaller <? 0
        then (Z.quot (larger - smaller + 1440) 60, Z.rem (larger - smaller + 1440) 60)
        else (Z.quot (larger - smaller) 60, Z.rem (larger - smaller) 60))) /\
  addMinutes 1439 1 = (24, 0) /\
  subtractMinutes 0 1 = (23, 59).
Proof.
  cbv zeta. unfold addMinutes, subtractMinutes, MINUTES_IN_DAY, MINUTES_IN_HOUR,
    HOURS_IN_DAY.
  change (60 * 24) with 1440.
  repeat split.
  - destruct (int_sub larger smaller <? 0); reflexivity.
  - rewrite int_add_small by assumption. reflexivity.
  - rewrite int_add_small by assumption. cbn [fst snd].
    Z.to_euclidean_division_equations; lia.
  - rewrite int_add_small by assumption. cbn [fst snd]. intros Hbig.
    Z.to_euclidean_division_equations; lia.
  - intros Hin. rewrite (int_sub_small larger smaller) by assumption.
    destruct (Z.ltb_spec (larger - smaller) 0); [|reflexivity].
    rewrite int_add_small; [reflexivity|].
    unfold in_int, int_min, int_max in *. lia.
Qed.

Lemma addMinutes_subtractMinutes_spec_witness :
  addMinutes 907 120 = (Z.quot (907 + 120) 60, Z.rem (907 + 120) 60) /\
  subtractMinutes 485 600 =
    (Z.quot (485 - 600 + 1440) 60, Z.rem (485 - 600 + 1440) 60).
Proof.
  pose proof (addMinutes_subtractMinutes_spec 907 120 485 600) as H.
  cbv zeta in H. destruct H as (_ & _ & Ha & Hs & _).
  split.
  - apply Ha. unfold in_int, int_min, int_max. lia.
  - apply Hs. unfold in_int, int_min, int_max. lia.
Defined.

(** ** Configuration of the engine *)

Section ConfigurationFacts.

Import Gregorian Workday.

Lemma mkDate_eta d :
  mkDate (getYear d) (getMonth d) (getDay d) (getHours d) (getMinutes d) = d.
Proof. destruct d; reflexivity. Qed.

Lemma convertToMinutes_valid d :
  isValidDate d = true ->
  convertToMinutes (getTime d) = hour_ d * 60 + minute_ d /\
  0 <= hour_ d * 60 + minute_ d < 1440.
Proof.
  intros (_ & _ & _ & Hh & Hm)%isValidDate_true.
  unfold convertToMinutes, getTime, MINUTES_IN_HOUR. unwrap. lia.
Qed.

(** The duration stored by [updateWorkingDuration] is the difference
    of the two clock times, taken modulo one day. *)
Lemma updateWorkingDuration_minutes start stop :
  isValidDate start = true -> isValidDate stop = true ->
  convertToMinutes (getTime (updateWorkingDuration start stop)) =
    ((hour_ stop * 60 + minute_ stop) - (hour_ start * 60 + minute_ start))
      mod 1440.
Proof.
  intros Hs He.
  destruct (convertToMinutes_valid _ Hs) as [Es Bs].
  destruct (convertToMinutes_valid _ He) as [Ee Be].
  unfold updateWorkingDuration, subtractTime. rewrite Es, Ee.
  unfold MINUTES_IN_DAY, MINUTES_IN_HOUR, HOURS_IN_DAY.
  change (60 * 24) with 1440.
  set (a := hour_ stop * 60 + minute_ stop) in *.
  set (b := hour_ start * 60 + minute_ start) in *.
  unwrap.
  destruct (Z.ltb_spec (a - b) 0); unwrap;
    cbn [getTime hour_ minute_ convertToMinutes]; unfold MINUTES_IN_HOUR.
  - assert (Hq : 0 <= Z.quot (a - b + 1440) 60 < 24)
      by (Z.to_euclidean_division_equations; lia).
    assert (Hr : 0 <= Z.rem (a - b + 1440) 60 < 60)
      by (Z.to_euclidean_division_equations; lia).
    unwrap. Z.to_euclidean_division_equations; lia.
  - assert (Hq : 0 <= Z.quot (a - b) 60 < 24)
      by (Z.to_euclidean_division_equations; lia).
    assert (Hr : 0 <= Z.rem (a - b) 60 < 60)
      by (Z.to_euclidean_division_equations; lia).
    unwrap. Z.to_euclidean_division_equations; lia.
Qed.

End ConfigurationFacts.

(** C4. After [setWorkdayStartAndStop w start stop]: when both arguments
    are valid, start and stop are stored and the duration is recomputed
    from them (the clock difference modulo one day); when either is
    invalid, start and stop are both absent.  Start is absent exactly when
    stop is, and the holiday sets are untouched. *)
Theorem setWorkdayStartAndStop_all_or_nothing (w : WorkdayCalendar) (start stop : Date) :
  let w' := Workday.setWorkdayStartAndStop w start stop in
  (if Gregorian.isValidDate start && Gregorian.isValidDate stop
   then workday_start_ w' = Some start /\
        workday_stop_ w' = Some stop /\
        workday_duration_ w' =
          Some (mkDate 0 0 0 (fst (subtractTime (getTime stop) (getTime start)))
                             (snd (subtractTime (getTime stop) (getTime start)))) /\
        option_map (fun dur => convertToMinutes (getTime dur))
                   (workday_duration_ w') =
          Some (((hour_ stop * 60 + minute_ stop)
                 - (hour_ start * 60 + minute_ start)) mod 1440)
   else workday_start_ w' = None /\ workday_stop_ w' = None) /\
  (workday_start_ w' = None <-> workday_stop_ w' = None) /\
  calendar_ w' = calendar_ w.
Proof.
  cbv zeta. unfold Workday.setWorkdayStartAndStop.
  destruct (Gregorian.isValidDate start) eqn:Hs;
    destruct (Gregorian.isValidDate stop) eqn:He;
    cbn [negb andb workday_start_ workday_stop_ workday_duration_ calendar_];
    rewrite ?mkDate_eta; repeat split; try tauto; try discriminate.
  cbn [option_map]. f_equal. now apply updateWorkingDuration_minutes.
Qed.

(** The test of the suite: a start with month -5 clears both values. *)
Example setWorkdayStartAndStop_invalid_month :
  let w' := Workday.setWorkdayStartAndStop Examples.eightToFour
              (mkDate 2024 (-5) 20 8 0) (mkDate (-2024) 5 20 17 0) in
  Workday.getWorkdayStart w' = None /\ Workday.getWorkdayStop w' = None.
Proof. split; reflexivity. Qed.

(** Over the whole life of an engine the configuration is never half
    set, and a stored configuration is a valid one with its duration. *)
Lemma reachable_configuration w :
  reachable w ->
  match workday_start_ w, workday_stop_ w with
  | Some start, Some stop =>
      Gregorian.isValidDate start = true /\
      Gregorian.isValidDate stop = true /\
      workday_duration_ w = Some (Workday.updateWorkingDuration start stop)
  | None, None => True
  | _, _ => False
  end.
Proof.
  induction 1 as [|w start stop _ IH|w date _ IH|w date _ IH];
    try exact IH; [exact I|].
  unfold Workday.setWorkdayStartAndStop.
  destruct (Gregorian.isValidDate start) eqn:Hs; [|exact I].
  destruct (Gregorian.isValidDate stop) eqn:He; [|exact I].
  cbn. rewrite !mkDate_eta. auto.
Qed.

(** ** Day of week and holidays *)

Section HolidayFacts.

Import Gregorian.

Lemma t_at_in_bounds m :
  1 <= m <= 12 ->
  t_at (int_sub m 1) = Ret (List.nth (Z.to_nat (m - 1)) t 0).
Proof.
  intros Hm. unwrap. unfold t_at. change (Z.of_nat (List.length t)) with 12.
  cases_cmp; try lia. reflexivity.
Qed.

Lemma t_at_out_of_bounds m :
  in_int m -> ~ (1 <= m <= 12) -> t_at (int_sub m 1) = Fault OutOfBounds.
Proof.
  unfold in_int, int_min, int_max. intros Hi Hm.
  destruct (Z.eq_dec m (-2147483648)) as [->|Hne]; [reflexivity|].
  unwrap. unfold t_at. change (Z.of_nat (List.length t)) with 12.
  cases_cmp; try lia; reflexivity.
Qed.

Lemma dayOfWeek_defined d :
  1 <= month_ d <= 12 -> exists v, dayOfWeek d = Ret v.
Proof.
  intros Hm. unfold dayOfWeek. rewrite t_at_in_bounds by assumption.
  eexists. reflexivity.
Qed.

Lemma isHoliday_defined cal d :
  1 <= month_ d <= 12 -> exists b, isHoliday cal d = Ret b.
Proof.
  intros Hm. unfold isHoliday.
  destruct (dayOfWeek_defined d Hm) as [v ->]. cbn.
  repeat match goal with
         | |- context [if ?c then _ else _] => destruct c
         end; eexists; reflexivity.
Qed.

(** The holiday test looks at year, month and day only. *)
Lemma isHoliday_date_only cal d d' :
  year_ d = year_ d' -> month_ d = month_ d' -> day_ d = day_ d' ->
  isHoliday cal d = isHoliday cal d'.
Proof.
  destruct d, d'; cbn. intros -> -> ->. reflexivity.
Qed.

End HolidayFacts.

(** C10. [dayOfWeek] reads its twelve-entry table at index month-1
    with no bounds check.  For 1 <= month <= 12 the index is inside the
    table and [dayOfWeek] returns; for any other month it is outside.
    [isHoliday] calls [dayOfWeek] before anything else and without a
    validity check, so on a date whose month is outside 1..12, such as
    the all-(-1) sentinel, it reads out of bounds. *)
Theorem dayOfWeek_table_bounds :
  (forall d, 1 <= month_ d <= 12 ->
     t_at (int_sub (month_ d) 1) = Ret (List.nth (Z.to_nat (month_ d - 1)) t 0) /\
     (Z.to_nat (month_ d - 1) < List.length t)%nat /\
     exists v, dayOfWeek d = Ret v) /\
  (forall d, in_int (month_ d) -> ~ (1 <= month_ d <= 12) ->
     dayOfWeek d = Fault OutOfBounds /\
     (forall cal, Gregorian.isHoliday cal d = Fault OutOfBounds) /\
     (forall w, Workday.isHoliday w d = Fault OutOfBounds)) /\
  (forall d cal, Gregorian.isHoliday cal (generateInvalidDate d) = Fault OutOfBounds) /\
  (forall d w, Workday.isHoliday w (generateInvalidDate d) = Fault OutOfBounds).
Proof.
  split; [|split; [|split]].
  - intros d Hm. split; [now apply t_at_in_bounds|]. split.
    + change (List.length t) with 12%nat. lia.
    + now apply dayOfWeek_defined.
  - intros d Hi Hm.
    assert (Hd : dayOfWeek d = Fault OutOfBounds).
    { unfold dayOfWeek. rewrite t_at_out_of_bounds by assumption. reflexivity. }
    split; [exact Hd|].
    split; intros; unfold Workday.isHoliday, Gregorian.isHoliday;
      rewrite Hd; reflexivity.
  - reflexivity.
  - reflexivity.
Qed.

Lemma dayOfWeek_table_bounds_witness :
  (exists v, dayOfWeek (mkDate 2004 1 1 15 7) = Ret v) /\
  dayOfWeek (mkDate 2004 13 1 15 7) = Fault OutOfBounds.
Proof.
  destruct dayOfWeek_table_bounds as (Hin & Hout & _).
  split.
  - apply (Hin (mkDate 2004 1 1 15 7)). cbn. lia.
  - apply (Hout (mkDate 2004 13 1 15 7)).
    + unfold in_int, int_min, int_max. cbn. lia.
    + cbn. lia.
Defined.

(** C6. [isHoliday] first takes the day of the week; it answers true
    exactly when that is 0 (Sunday) or 6 (Saturday), or the date's
    Y-M-D text is in the one-time set, or its (month, day) pair is in the
    recurring set.  A weekend day is a holiday whatever the sets hold,
    and the date is not validated: every date with a month in 1..12 is
    classified, valid or not. *)
Theorem isHoliday_spec (cal : GregorianCalendar) (d : Date) :
  (Gregorian.isHoliday cal d = Ret true <->
     exists dow, dayOfWeek d = Ret dow /\
       (dow = 0 \/ dow = 6 \/
        (getDate d ∈ holidays_ cal) \/
        ((getMonth d, getDay d) ∈ recurring_holidays_ cal))) /\
  (Gregorian.isHoliday cal d = Ret false <->
     exists dow, dayOfWeek d = Ret dow /\
       dow <> 0 /\ dow <> 6 /\
       (getDate d ∉ holidays_ cal) /\
       ((getMonth d, getDay d) ∉ recurring_holidays_ cal)) /\
  (forall cal', dayOfWeek d = Ret 0 \/ dayOfWeek d = Ret 6 ->
     Gregorian.isHoliday cal' d = Ret true) /\
  (forall f, dayOfWeek d = Fault f -> Gregorian.isHoliday cal d = Fault f) /\
  (1 <= month_ d <= 12 -> exists b, Gregorian.isHoliday cal d = Ret b) /\
  (Gregorian.isValidDate (mkDate 2024 5 40 99 99) = false /\
   Gregorian.isHoliday Gregorian.new (mkDate 2024 5 40 99 99) = Ret true).
Proof.
  unfold Gregorian.isHoliday.
  repeat split.
  - destruct (dayOfWeek d) as [dow| |]; cbn; try discriminate.
    intros H. exists dow. split; [reflexivity|]. revert H.
    destruct (Z.eqb_spec dow 0); [auto|].
    destruct (Z.eqb_spec dow 6); [auto|]. cbn.
    case_bool_decide; [auto|]. case_bool_decide; [auto|]. discriminate.
  - intros (dow & -> & H). cbn.
    destruct (Z.eqb_spec dow 0); [reflexivity|].
    destruct (Z.eqb_spec dow 6); [reflexivity|]. cbn.
    case_bool_decide; [reflexivity|]. case_bool_decide; [reflexivity|].
    tauto.
  - destruct (dayOfWeek d) as [dow| |]; cbn; try discriminate.
    intros H. exists dow. split; [reflexivity|]. revert H.
    destruct (Z.eqb_spec dow 0); [discriminate|].
    destruct (Z.eqb_spec dow 6); [discriminate|]. cbn.
    case_bool_decide; [discriminate|]. case_bool_decide; [discriminate|].
    auto.
  - intros (dow & -> & H0 & H6 & Hh & Hr). cbn.
    destruct (Z.eqb_spec dow 0); [contradiction|].
    destruct (Z.eqb_spec dow 6); [contradiction|]. cbn.
    rewrite !bool_decide_eq_false_2 by assumption. reflexivity.
  - intros cal' [-> | ->]; reflexivity.
  - intros f ->. reflexivity.
  - apply isHoliday_defined.
Qed.

Lemma isHoliday_spec_witness :
  Gregorian.isHoliday Gregorian.new (mkDate 2024 5 11 9 0) = Ret true /\
  exists b, Gregorian.isHoliday Gregorian.new (mkDate 2024 5 13 9 0) = Ret b.
Proof.
  destruct (isHoliday_spec Gregorian.new (mkDate 2024 5 11 9 0))
    as (_ & _ & Hweekend & _).
  destruct (isHoliday_spec Gregorian.new (mkDate 2024 5 13 9 0))
    as (_ & _ & _ & _ & Hdef & _).
  split.
  - apply Hweekend. right. reflexivity.
  - apply Hdef. cbn. lia.
Defined.

(** ** The increment algorithm on concrete inputs *)

Section IncrementFacts.

Import Gregorian Workday.

Lemma incrementWorkDay_unfold fuel w d dec :
  incrementWorkDay fuel w d dec =
    skipHolidays fuel (calendar_ w) dec (stepDay dec d).
Proof. reflexivity. Qed.

(** At the stop time of a day (or later) [addRemainingMinutes] first
    moves to the start of the next workday, and only then adds. *)
Lemma addRemainingMinutes_at_stop fuel w start stop minutes current :
  convertToMinutes (getTime start) < convertToMinutes (getTime stop) ->
  convertToMinutes (getTime stop) <= convertToMinutes (getTime current) ->
  addRemainingMinutes fuel w start stop minutes current =
    (next ← incrementWorkDay fuel w current false;
     addRemainingMinutes fuel w start stop minutes (atTimeOf next start)).
Proof.
  intros Hlt Hge. unfold addRemainingMinutes at 1.
  destruct (Z.leb_spec (convertToMinutes (getTime stop))
                       (convertToMinutes (getTime current))); [|lia].
  destruct (incrementWorkDay fuel w current false) as [next| |];
    try reflexivity.
  cbn [mbind outcome_bind]. unfold addRemainingMinutes.
  assert (Ht : getTime (atTimeOf next start) = getTime start) by reflexivity.
  rewrite Ht.
  destruct (Z.leb_spec (convertToMinutes (getTime stop))
                       (convertToMinutes (getTime start))); [lia|].
  rewrite Z.ltb_irrefl. cbn [mbind outcome_bind]. rewrite Ht. reflexivity.
Qed.

(** With the clock at the stop time or later and an amount that fits
    the workday, the result is the next workday at the start time plus
    the amount. *)
Lemma addRemainingMinutes_at_stop_result fuel w start stop minutes current next :
  convertToMinutes (getTime start) < convertToMinutes (getTime stop) ->
  convertToMinutes (getTime stop) <= convertToMinutes (getTime current) ->
  0 <= minutes ->
  convertToMinutes (getTime start) + minutes <= convertToMinutes (getTime stop) ->
  incrementWorkDay fuel w current false = Ret next ->
  addRemainingMinutes fuel w start stop minutes current =
    Ret (mkDate (year_ next) (month_ next) (day_ next)
           (Z.quot (convertToMinutes (getTime start) + minutes) 60)
           (Z.rem (convertToMinutes (getTime start) + minutes) 60)).
Proof.
  intros Hlt Hge Hm Hfit Hnext.
  assert (Hs : in_int (convertToMinutes (getTime start))).
  { unfold convertToMinutes. destruct (getTime start). apply wrap_in_int. }
  assert (Hp : in_int (convertToMinutes (getTime stop))).
  { unfold convertToMinutes. destruct (getTime stop). apply wrap_in_int. }
  unfold addRemainingMinutes.
  destruct (Z.leb_spec (convertToMinutes (getTime stop))
                       (convertToMinutes (getTime current))); [|lia].
  rewrite Hnext. cbn [mbind outcome_bind].
  assert (Ht : getTime (atTimeOf next start) = getTime start) by reflexivity.
  rewrite Ht.
  assert (Hadd : int_add (convertToMinutes (getTime start)) minutes =
                 convertToMinutes (getTime start) + minutes).
  { apply wrap_small. unfold in_int in *. lia. }
  rewrite Hadd.
  destruct (Z.leb_spec (convertToMinutes (getTime start) + minutes)
                       (convertToMinutes (getTime stop))); [|lia].
  unfold addMinutes. rewrite Hadd. reflexivity.
Qed.

End IncrementFacts.

(** C1. With the workday set to 08:00-16:00 and no holidays registered,
    [getWorkdayIncrement(2004-01-01 15:07, 0.25)] is 2004-01-02 09:07 and
    [getWorkdayIncrement(2004-01-01 16:00, 0.5)] is 2004-01-02 12:00.  A
    start exactly at the stop time counts as past stop: even an increment
    of zero rolls 16:00 to 08:00 of the next workday, while 15:59 stays
    where it is.  In general, for any engine whose start time is before
    its stop time and any date whose clock is at the stop time or later,
    [addRemainingMinutes] first moves to the start time of the next
    workday and adds the minutes from there; when the minutes fit the
    workday the result is that workday at start time plus the minutes. *)
Theorem getWorkdayIncrement_examples (fuel : nat) :
  Workday.getWorkdayIncrement (S fuel) Examples.eightToFour
    (mkDate 2004 1 1 15 7) Examples.f_0_25 = Ret (mkDate 2004 1 2 9 7) /\
  Workday.getWorkdayIncrement (S fuel) Examples.eightToFour
    (mkDate 2004 1 1 16 0) Examples.f_0_5 = Ret (mkDate 2004 1 2 12 0) /\
  Workday.getWorkdayIncrement (S fuel) Examples.eightToFour
    (mkDate 2004 1 1 16 0) Examples.f_0_5 =
  Workday.getWorkdayIncrement (S fuel) Examples.eightToFour
    (mkDate 2004 1 2 8 0) Examples.f_0_5 /\
  Workday.getWorkdayIncrement (S fuel) Examples.eightToFour
    (mkDate 2004 1 1 16 0) Float32.zero = Ret (mkDate 2004 1 2 8 0) /\
  Workday.getWorkdayIncrement (S fuel) Examples.eightToFour
    (mkDate 2004 1 1 15 59) Float32.zero = Ret (mkDate 2004 1 1 15 59) /\
  (forall w start stop minutes current,
     convertToMinutes (DateOps.getTime start) <
       convertToMinutes (DateOps.getTime stop) ->
     convertToMinutes (DateOps.getTime stop) <=
       convertToMinutes (DateOps.getTime current) ->
     Workday.addRemainingMinutes fuel w start stop minutes current =
       (next ← Workday.incrementWorkDay fuel w current false;
        Workday.addRemainingMinutes fuel w start stop minutes
          (Workday.atTimeOf next start))) /\
  (forall w start stop minutes current next,
     convertToMinutes (DateOps.getTime start) <
       convertToMinutes (DateOps.getTime stop) ->
     convertToMinutes (DateOps.getTime stop) <=
       convertToMinutes (DateOps.getTime current) ->
     0 <= minutes ->
     convertToMinutes (DateOps.getTime start) + minutes <=
       convertToMinutes (DateOps.getTime stop) ->
     Workday.incrementWorkDay fuel w current false = Ret next ->
     Workday.addRemainingMinutes fuel w start stop minutes current =
       Ret (mkDate (year_ next) (month_ next) (day_ next)
              (Z.quot (convertToMinutes (DateOps.getTime start) + minutes) 60)
              (Z.rem (convertToMinutes (DateOps.getTime start) + minutes) 60))).
Proof.
  split; [|split; [|split; [|split; [|split; [|split]]]]].
  - vm_compute. reflexivity.
  - vm_compute. reflexivity.
  - vm_compute. reflexivity.
  - vm_compute. reflexivity.
  - vm_compute. reflexivity.
  - intros. now apply addRemainingMinutes_at_stop.
  - intros. now apply addRemainingMinutes_at_stop_result.
Qed.

Lemma getWorkdayIncrement_examples_witness :
  Workday.addRemainingMinutes 3 Examples.eightToFour
    Examples.startWorkday Examples.stopWorkday 0 (mkDate 2004 1 1 16 0) =
    Ret (mkDate 2004 1 2 8 0) /\
  Workday.addRemainingMinutes 3 Examples.eightToFour
    Examples.startWorkday Examples.stopWorkday 480 (mkDate 2004 1 2 17 30) =
    Ret (mkDate 2004 1 5 16 0).
Proof.
  destruct (getWorkdayIncrement_examples 3) as (_ & _ & _ & _ & _ & _ & H).
  split.
  - apply (H Examples.eightToFour Examples.startWorkday Examples.stopWorkday
             0 (mkDate 2004 1 1 16 0) (mkDate 2004 1 2 16 0));
      vm_compute; congruence.
  - apply (H Examples.eightToFour Examples.startWorkday Examples.stopWorkday
             480 (mkDate 2004 1 2 17 30) (mkDate 2004 1 5 17 30));
      vm_compute; congruence.
Defined.

(** C3, at the failing input.  A start and a stop at the same time of
    day are both valid, so the configuration is accepted with a
    duration of zero minutes; the next [getWorkdayIncrement] divides by
    that zero and returns nothing. *)
Theorem getWorkdayIncrement_zero_duration (fuel : nat) :
  Gregorian.isValidDate Examples.startWorkday = true /\
  Workday.getWorkdayStart Examples.zeroLength = Some Examples.startWorkday /\
  Workday.getWorkdayStop Examples.zeroLength = Some Examples.startWorkday /\
  workday_duration_ Examples.zeroLength = Some (mkDate 0 0 0 0 0) /\
  Workday.getWorkdayIncrement fuel Examples.zeroLength
    (mkDate 2004 1 1 9 0) Examples.f_1 = Fault DivideByZero.
Proof.
  split; [|split; [|split; [|split]]]; vm_compute; reflexivity.
Qed.

(** The part of C3 the code does keep: an invalid start date, or a
    missing start, stop or duration, gives the all-(-1) date. *)
Lemma getWorkdayIncrement_sentinel fuel w d amount :
  Gregorian.isValidDate d = false \/ workday_start_ w = None \/
  workday_stop_ w = None \/ workday_duration_ w = None ->
  Workday.getWorkdayIncrement fuel w d amount =
    Ret (mkDate (-1) (-1) (-1) (-1) (-1)).
Proof.
  unfold Workday.getWorkdayIncrement.
  intros [-> | H]; [reflexivity|].
  destruct (Gregorian.isValidDate d); [|reflexivity]. cbn [negb].
  destruct (workday_start_ w), (workday_stop_ w), (workday_duration_ w);
    try reflexivity.
  destruct H as [H | [H | H]]; discriminate.
Qed.

(** ** A zero increment inside working hours *)

Section ZeroIncrementFacts.

Import Gregorian Workday.

(** Zero workdays are zero minutes, whatever the sign of the zero and
    for every workday length below one day. *)
Lemma zero_increment_minutes s z :
  0 <= z < 1440 ->
  Float32.ltb (S754_zero s) (Float32.of_long 0) = false /\
  Float32.static_cast_long
    (Float32.mul (S754_zero s) (Float32.of_long z)) = Ret 0.
Proof.
  intros Hz. split; [destruct s; reflexivity|].
  assert (Hall : List.forallb
            (fun z => match Float32.static_cast_long
                              (Float32.mul (S754_zero s) (Float32.of_long z))
                      with Ret 0 => true | _ => false end)
            (seqZ 0 1440) = true)
    by (destruct s; vm_compute; reflexivity).
  rewrite List.forallb_forall in Hall. specialize (Hall z).
  destruct (Float32.static_cast_long _) as [[| |]| |];
    try reflexivity; exfalso;
    (assert (false = true); [apply Hall|discriminate]);
    apply list_elem_of_In, elem_of_seqZ; lia.
Qed.

Lemma addMinutes_zero_valid d :
  isValidDate d = true ->
  addMinutes (convertToMinutes (getTime d)) 0 = (hour_ d, minute_ d).
Proof.
  intros Hv. destruct (convertToMinutes_valid d Hv) as [-> Hb].
  apply isValidDate_true in Hv as (_ & _ & _ & Hh & Hm).
  unfold addMinutes, MINUTES_IN_HOUR. unwrap.
  f_equal; Z.to_euclidean_division_equations; lia.
Qed.

End ZeroIncrementFacts.

(** C2. In a configured engine, for a valid date [d] that is not a
    holiday and whose clock time is at or after the start time and before
    the stop time, [getWorkdayIncrement(d, 0)] returns [d] itself.  The
    zero may carry either sign, and one round of each loop test is all
    the run needs. *)
Theorem getWorkdayIncrement_zero_inside_hours
  (w : WorkdayCalendar) (start stop d : Date) (s : bool) (fuel : nat) :
  reachable w ->
  Workday.getWorkdayStart w = Some start ->
  Workday.getWorkdayStop w = Some stop ->
  Gregorian.isValidDate d = true ->
  Workday.isHoliday w d = Ret false ->
  hour_ start * 60 + minute_ start <= hour_ d * 60 + minute_ d ->
  hour_ d * 60 + minute_ d < hour_ stop * 60 + minute_ stop ->
  Workday.getWorkdayIncrement (S fuel) w d (S754_zero s) = Ret d.
Proof.
  unfold Workday.getWorkdayStart, Workday.getWorkdayStop, Workday.isHoliday.
  intros Hreach Hstart Hstop Hvalid Hhol Hlo Hhi.
  pose proof (reachable_configuration w Hreach) as Hcfg.
  rewrite Hstart, Hstop in Hcfg. destruct Hcfg as (Hvs & Hve & Hdur).
  destruct (convertToMinutes_valid _ Hvs) as [Es Bs].
  destruct (convertToMinutes_valid _ Hve) as [Ee Be].
  destruct (convertToMinutes_valid _ Hvalid) as [Ed Bd].
  pose proof (updateWorkingDuration_minutes start stop Hvs Hve) as Ewd.
  rewrite Z.mod_small in Ewd by lia.
  set (wmin := convertToMinutes
                 (getTime (Workday.updateWorkingDuration start stop))) in *.
  destruct (zero_increment_minutes s wmin ltac:(lia)) as [Hdec Hmin].
  unfold Workday.getWorkdayIncrement.
  rewrite Hvalid, Hstart, Hstop, Hdur. cbn [negb].
  rewrite Hdec. fold wmin. rewrite Hmin. cbn [mbind outcome_bind].
  unfold Workday.long_div, Workday.long_rem.
  destruct (Z.eqb_spec wmin 0) as [E0|_]; [lia|].
  rewrite Z.quot_0_l by lia. rewrite Z.rem_0_l by lia.
  change (wrap 0) with 0. cbn [mbind outcome_bind].
  change (Z.quot 0 Workday.WORKWEEK_DURATION) with 0.
  change (Z.rem 0 Workday.WORKWEEK_DURATION) with 0.
  change (Z.to_nat 0) with 0%nat.
  cbn [Workday.moveToFirstWorkday]. rewrite Hhol.
  cbn [mbind outcome_bind repeatM].
  unfold Workday.addRemainingMinutes. rewrite Es, Ee, Ed.
  destruct (Z.leb_spec (hour_ stop * 60 + minute_ stop)
                       (hour_ d * 60 + minute_ d)); [lia|].
  destruct (Z.ltb_spec (hour_ d * 60 + minute_ d)
                       (hour_ start * 60 + minute_ start)); [lia|].
  cbn [mbind outcome_bind]. rewrite Ed. unwrap.
  rewrite Z.add_0_r.
  destruct (Z.leb_spec (hour_ d * 60 + minute_ d)
                       (hour_ stop * 60 + minute_ stop)); [|lia].
  rewrite <- Ed, (addMinutes_zero_valid d Hvalid).
  destruct d; reflexivity.
Qed.

Lemma getWorkdayIncrement_zero_inside_hours_witness :
  Workday.getWorkdayIncrement 1 Examples.eightToFour
    (mkDate 2024 3 1 9 0) (S754_zero false) = Ret (mkDate 2024 3 1 9 0).
Proof.
  apply (getWorkdayIncrement_zero_inside_hours Examples.eightToFour
           Examples.startWorkday Examples.stopWorkday).
  - apply reach_setWorkdayStartAndStop, reach_new.
  - reflexivity.
  - reflexivity.
  - reflexivity.
  - vm_compute. reflexivity.
  - cbn. lia.
  - cbn. lia.
Defined.

(** ** One calendar day forward and back *)

Section DayStepFacts.

Import Gregorian.

Lemma leapYearsBefore_succ y :
  Spec.leapYearsBefore (y + 1) =
    Spec.leapYearsBefore y + (if isLeapYear y then 1 else 0).
Proof.
  rewrite isLeapYear_rule. unfold Spec.leapYearsBefore, Spec.isLeapYear.
  replace (y + 1 + 3) with (y + 4) by lia.
  replace (y + 1 + 99) with (y + 100) by lia.
  replace (y + 1 + 399) with (y + 400) by lia.
  destruct (Z.eqb_spec (Z.rem y 4) 0), (Z.eqb_spec (Z.rem y 100) 0),
           (Z.eqb_spec (Z.rem y 400) 0); cbn [andb orb negb];
    Z.to_euclidean_division_equations; lia.
Qed.

Lemma addDay_time d :
  hour_ (addDay d) = hour_ d /\ minute_ (addDay d) = minute_ d.
Proof.
  unfold addDay, setDate.
  repeat match goal with
         | |- context [if ?c then _ else _] => destruct c
         end; split; reflexivity.
Qed.

Lemma removeDay_time d :
  hour_ (removeDay d) = hour_ d /\ minute_ (removeDay d) = minute_ d.
Proof.
  unfold removeDay, setDate.
  repeat match goal with
         | |- context [if ?c then _ else _] => destruct c
         end; split; reflexivity.
Qed.

Ltac eval_to_nat :=
  repeat match goal with
         | |- context [Z.to_nat ?e] =>
             let v := eval vm_compute in (Z.to_nat e) in
             change (Z.to_nat e) with v
         end.

Ltac eval_months :=
  repeat match goal with
         | |- context [Z.pos ?p - 1] =>
             let v := eval vm_compute in (Z.pos p - 1) in
             change (Z.pos p - 1) with v
         | |- context [Z.pos ?p + 1] =>
             let v := eval vm_compute in (Z.pos p + 1) in
             change (Z.pos p + 1) with v
         end;
  cbn [daysInMonth].

Ltac month_split Hm :=
  destruct (month_cases _ Hm) as
    [->|[->|[->|[->|[->|[->|[->|[->|[->|[->|[->| ->]]]]]]]]]]].

Lemma addDay_dayNumber d :
  isValidDate d = true -> year_ d < int_max ->
  Spec.dayNumber (addDay d) = Spec.dayNumber d + 1.
Proof.
  destruct d as [y m dd h mi].
  intros (Hy & Hm & Hd & _)%isValidDate_true Hmax.
  cbn [year_ month_ day_] in *. unfold int_max in Hmax.
  pose proof (leapYearsBefore_succ y) as Hleap.
  unfold addDay, setDate, getYear, getMonth, getDay, getHours, getMinutes.
  cbn [year_ month_ day_ hour_ minute_].
  month_split Hm; cbn [daysInMonth] in *;
    destruct (isLeapYear y) eqn:El; unwrap; cases_cmp; try lia;
    unfold Spec.dayNumber, Spec.daysBeforeMonth, Spec.monthTable;
    cbn [year_ month_ day_]; rewrite <- ?isLeapYear_rule, ?El;
    eval_to_nat; cbn [List.firstn List.fold_right]; lia.
Qed.

Lemma removeDay_dayNumber d :
  isValidDate d = true -> in_int (year_ d) ->
  Spec.dayNumber (removeDay d) = Spec.dayNumber d - 1.
Proof.
  destruct d as [y m dd h mi].
  intros (Hy & Hm & Hd & _)%isValidDate_true Hmax.
  cbn [year_ month_ day_] in *. unfold in_int, int_min, int_max in Hmax.
  pose proof (leapYearsBefore_succ (y - 1)) as Hleap.
  replace (y - 1 + 1) with y in Hleap by lia.
  unfold removeDay, setDate, getYear, getMonth, getDay, getHours, getMinutes.
  cbn [year_ month_ day_ hour_ minute_].
  month_split Hm; cbn [daysInMonth] in *;
    destruct (isLeapYear y) eqn:El;
    destruct (isLeapYear (y - 1)) eqn:El1; unwrap; cases_cmp; try lia;
    unfold Spec.dayNumber, Spec.daysBeforeMonth, Spec.monthTable;
    cbn [year_ month_ day_]; eval_months;
    rewrite <- ?isLeapYear_rule, ?El, ?El1;
    eval_to_nat; cbn [List.firstn List.fold_right]; lia.
Qed.

Lemma removeDay_addDay d :
  isValidDate d = true -> year_ d < int_max -> removeDay (addDay d) = d.
Proof.
  destruct d as [y m dd h mi].
  intros (Hy & Hm & Hd & _)%isValidDate_true Hmax.
  cbn [year_ month_ day_] in *. unfold int_max in Hmax.
  unfold addDay, setDate, getYear, getMonth, getDay, getHours, getMinutes.
  cbn [year_ month_ day_ hour_ minute_].
  month_split Hm; cbn [daysInMonth] in *;
    destruct (isLeapYear y) eqn:El; unwrap; cases_cmp; try lia;
    unfold removeDay, setDate, getYear, getMonth, getDay, getHours,
      getMinutes;
    cbn [year_ month_ day_ hour_ minute_]; unwrap; cases_cmp; try lia;
    eval_months; rewrite ?El; f_equal; lia.
Qed.

Lemma addDay_removeDay d :
  isValidDate d = true -> in_int (year_ d) -> addDay (removeDay d) = d.
Proof.
  destruct d as [y m dd h mi].
  intros (Hy & Hm & Hd & _)%isValidDate_true Hmax.
  cbn [year_ month_ day_] in *. unfold in_int, int_min, int_max in Hmax.
  unfold removeDay, setDate, getYear, getMonth, getDay, getHours, getMinutes.
  cbn [year_ month_ day_ hour_ minute_].
  month_split Hm; cbn [daysInMonth] in *;
    destruct (isLeapYear y) eqn:El; unwrap; cases_cmp; try lia;
    unfold addDay, setDate, getYear, getMonth, getDay, getHours,
      getMinutes;
    cbn [year_ month_ day_ hour_ minute_]; eval_months;
    rewrite ?El; unwrap; cases_cmp; try lia; f_equal; lia.
Qed.

End DayStepFacts.

(** C7, as stated, fails on the last day of the largest year an [int]
    holds: the date is valid, and [addDay] wraps the year around. *)
Lemma addDay_year_overflow :
  Gregorian.isValidDate (mkDate 2147483647 12 31 0 0) = true /\
  Gregorian.addDay (mkDate 2147483647 12 31 0 0) =
    mkDate (-2147483648) 1 1 0 0 /\
  Spec.dayNumber (Gregorian.addDay (mkDate 2147483647 12 31 0 0)) <>
    Spec.dayNumber (mkDate 2147483647 12 31 0 0) + 1.
Proof.
  split; [|split]; vm_compute; congruence.
Qed.

(** C7, amended.  For every valid date (its year an [int]),
    [removeDay] moves year, month and day back by exactly one calendar
    day, and so does [addDay] forward when the year is below the largest
    [int]; each undoes the other.  Inside a month only the day changes; at a month end the month
    changes and the day becomes 1 (forward) or the length of the previous
    month (backward); between December 31 and January 1 the year changes.
    Hour and minute are never touched, on any date. *)
Theorem addDay_removeDay_one_day (d : Date) :
  Gregorian.isValidDate d = true ->
  in_int (year_ d) ->
  (year_ d < int_max ->
     Spec.dayNumber (Gregorian.addDay d) = Spec.dayNumber d + 1 /\
     Gregorian.removeDay (Gregorian.addDay d) = d) /\
  Spec.dayNumber (Gregorian.removeDay d) = Spec.dayNumber d - 1 /\
  Gregorian.addDay (Gregorian.removeDay d) = d /\
  (day_ d < Gregorian.daysInMonth (year_ d) (month_ d) ->
     Gregorian.addDay d =
       mkDate (year_ d) (month_ d) (day_ d + 1) (hour_ d) (minute_ d)) /\
  (day_ d = Gregorian.daysInMonth (year_ d) (month_ d) -> month_ d < 12 ->
     Gregorian.addDay d =
       mkDate (year_ d) (month_ d + 1) 1 (hour_ d) (minute_ d)) /\
  (day_ d = 31 -> month_ d = 12 -> year_ d < int_max ->
     Gregorian.addDay d = mkDate (year_ d + 1) 1 1 (hour_ d) (minute_ d)) /\
  (1 < day_ d ->
     Gregorian.removeDay d =
       mkDate (year_ d) (month_ d) (day_ d - 1) (hour_ d) (minute_ d)) /\
  (day_ d = 1 -> 1 < month_ d ->
     Gregorian.removeDay d =
       mkDate (year_ d) (month_ d - 1)
              (Gregorian.daysInMonth (year_ d) (month_ d - 1))
              (hour_ d) (minute_ d)) /\
  (day_ d = 1 -> month_ d = 1 ->
     Gregorian.removeDay d = mkDate (year_ d - 1) 12 31 (hour_ d) (minute_ d)) /\
  (forall x, hour_ (Gregorian.addDay x) = hour_ x /\
             minute_ (Gregorian.addDay x) = minute_ x /\
             hour_ (Gregorian.removeDay x) = hour_ x /\
             minute_ (Gregorian.removeDay x) = minute_ x).
Proof.
  intros Hv Hy.
  pose proof Hv as (Hy0 & Hm & Hd & _)%isValidDate_true.
  pose proof (daysInMonth_bounds (year_ d) (month_ d)) as Hdim.
  split; [intros Hlt; split;
          [now apply addDay_dayNumber | now apply removeDay_addDay]|].
  split; [now apply removeDay_dayNumber|].
  split; [now apply addDay_removeDay|].
  unfold in_int, int_min, int_max in *.
  repeat split.
  - intros Hlt. unfold Gregorian.addDay, setDate, getYear, getMonth, getDay,
      getHours, getMinutes. unwrap. cases_cmp; try lia; reflexivity.
  - intros He Hlt. unfold Gregorian.addDay, setDate, getYear, getMonth, getDay,
      getHours, getMinutes. unwrap. cases_cmp; try lia; reflexivity.
  - intros He Hm12 Hlt. unfold Gregorian.addDay, setDate, getYear, getMonth,
      getDay, getHours, getMinutes. unwrap. rewrite Hm12 in *.
    cbn [Gregorian.daysInMonth] in *. cases_cmp; try lia; reflexivity.
  - intros Hgt. unfold Gregorian.removeDay, setDate, getYear, getMonth, getDay,
      getHours, getMinutes. unwrap. cases_cmp; try lia; reflexivity.
  - intros He Hgt. unfold Gregorian.removeDay, setDate, getYear, getMonth,
      getDay, getHours, getMinutes. unwrap. cases_cmp; try lia; reflexivity.
  - intros He Hm1. unfold Gregorian.removeDay, setDate, getYear, getMonth,
      getDay, getHours, getMinutes. unwrap. cases_cmp; try lia; reflexivity.
  - apply addDay_time.
  - apply addDay_time.
  - apply removeDay_time.
  - apply removeDay_time.
Qed.

Lemma addDay_removeDay_one_day_witness :
  Spec.dayNumber (Gregorian.addDay (mkDate 2024 2 29 9 30)) =
    Spec.dayNumber (mkDate 2024 2 29 9 30) + 1 /\
  Gregorian.addDay (mkDate 2024 2 29 9 30) = mkDate 2024 (2 + 1) 1 9 30 /\
  Gregorian.removeDay (mkDate 2024 1 1 9 30) = mkDate (2024 - 1) 12 31 9 30.
Proof.
  assert (Hint : in_int 2024) by (unfold in_int, int_min, int_max; lia).
  destruct (addDay_removeDay_one_day (mkDate 2024 2 29 9 30) eq_refl Hint)
    as (Hfwd & _ & _ & _ & Hend & _).
  destruct (addDay_removeDay_one_day (mkDate 2024 1 1 9 30) eq_refl Hint)
    as (_ & _ & _ & _ & _ & _ & _ & _ & Hjan & _).
  split; [|split].
  - apply Hfwd. unfold int_max. cbn. lia.
  - apply Hend; [reflexivity | cbn; lia].
  - apply Hjan; reflexivity.
Defined.

(** ** Termination of the holiday-skipping loops *)

Section StepFacts.

Import Gregorian Workday Spec.

Lemma sameDay_refl a : sameDay a a.
Proof. repeat split. Qed.

Lemma sameDay_trans a b c : sameDay a b -> sameDay b c -> sameDay a c.
Proof. unfold sameDay. intuition congruence. Qed.

Lemma sameDay_atTimeOf c t : sameDay (atTimeOf c t) c.
Proof. repeat split. Qed.

Lemma stepDay_sameDay dec a b :
  sameDay a b -> sameDay (stepDay dec a) (stepDay dec b).
Proof.
  destruct a as [y m dd h mi], b as [y' m' dd' h' mi'].
  unfold sameDay. cbn [year_ month_ day_]. intros (<- & <- & <-).
  unfold stepDay, addDay, removeDay, setDate, getYear, getMonth, getDay,
    getHours, getMinutes.
  cbn [year_ month_ day_ hour_ minute_].
  destruct dec;
    repeat match goal with
           | |- context [if ?c then _ else _] => destruct c
           end; repeat split.
Qed.

Lemma stepDay_month dec a :
  1 <= month_ a <= 12 -> 1 <= month_ (stepDay dec a) <= 12.
Proof.
  intros Hm. unfold stepDay, addDay, removeDay, setDate, getYear, getMonth,
    getDay, getHours, getMinutes.
  rewrite (int_add_small (month_ a) 1), (int_sub_small (month_ a) 1)
    by (unfold in_int, int_min, int_max; lia).
  destruct dec; cases_cmp; cbn [month_]; lia.
Qed.

Lemma iter_stepDay_month dec k a :
  1 <= month_ a <= 12 -> 1 <= month_ (Nat.iter k (stepDay dec) a) <= 12.
Proof.
  intros Hm. induction k as [|k IH]; [exact Hm|].
  cbn [Nat.iter nat_rect]. now apply stepDay_month.
Qed.

Lemma isHoliday_sameDay cal a b :
  sameDay a b -> Gregorian.isHoliday cal a = Gregorian.isHoliday cal b.
Proof. intros (Hy & Hm & Hd). now apply isHoliday_date_only. Qed.

End StepFacts.

Section Termination.

Import Gregorian Workday Spec.

Variable w : WorkdayCalendar.
Variable dec : bool.
Variable d0 : Date.
Variables gap span fuel : nat.

Hypothesis d0_month : 1 <= month_ d0 <= 12.
Hypothesis enough_fuel : (gap < fuel)%nat.

(** On each of the first [span] days of the way, a day that is not a
    holiday lies at most [gap] days ahead. *)
Hypothesis workday_ahead :
  forall k, (k <= span)%nat ->
    exists n, (n <= gap)%nat /\
      Gregorian.isHoliday (calendar_ w) (Nat.iter (k + n) (stepDay dec) d0) = Ret false.

Local Abbreviation onDay := (Spec.onDay dec d0).

Lemma onDay_step k c : onDay k c -> onDay (S k) (stepDay dec c).
Proof. intros H. apply (stepDay_sameDay dec _ _ H). Qed.

Lemma onDay_atTimeOf k c t : onDay k c -> onDay k (atTimeOf c t).
Proof. intros H. exact (sameDay_trans _ _ _ (sameDay_atTimeOf c t) H). Qed.

Lemma onDay_isHoliday k c :
  onDay k c -> exists b,
    Gregorian.isHoliday (calendar_ w) c = Ret b /\
    Gregorian.isHoliday (calendar_ w) (Nat.iter k (stepDay dec) d0) = Ret b.
Proof.
  intros H. rewrite (isHoliday_sameDay _ _ _ H).
  destruct (isHoliday_defined (calendar_ w) (Nat.iter k (stepDay dec) d0))
    as [b Hb]; [now apply iter_stepDay_month|].
  exists b. now rewrite Hb.
Qed.

Lemma skipHolidays_onDay f n k c :
  onDay k c -> (n < f)%nat ->
  Gregorian.isHoliday (calendar_ w) (Nat.iter (k + n) (stepDay dec) d0) = Ret false ->
  exists c' m, (m <= n)%nat /\
    skipHolidays f (calendar_ w) dec c = Ret c' /\ onDay (k + m) c'.
Proof.
  revert n k c. induction f as [|f IH]; intros n k c Hon Hlt Hfree; [lia|].
  cbn [skipHolidays].
  destruct (onDay_isHoliday k c Hon) as ([|] & -> & Hk);
    cbn [mbind outcome_bind].
  - destruct n as [|n].
    + rewrite Nat.add_0_r in Hfree. congruence.
    + destruct (IH n (S k) (stepDay dec c)) as (c' & m & Hm & Hrun & Hon').
      * now apply onDay_step.
      * lia.
      * now rewrite Nat.add_succ_r in Hfree.
      * exists c', (S m). split; [lia|]. split; [exact Hrun|].
        now rewrite Nat.add_succ_r.
  - exists c, 0%nat. split; [lia|]. split; [reflexivity|].
    now rewrite Nat.add_0_r.
Qed.

Lemma moveToFirstWorkday_onDay start stop f n k c :
  onDay k c -> (n < f)%nat ->
  Gregorian.isHoliday (calendar_ w) (Nat.iter (k + n) (stepDay dec) d0) = Ret false ->
  exists c' m, (m <= n)%nat /\
    moveToFirstWorkday f (calendar_ w) start stop dec c = Ret c' /\
    onDay (k + m) c'.
Proof.
  revert n k c. induction f as [|f IH]; intros n k c Hon Hlt Hfree; [lia|].
  cbn [moveToFirstWorkday].
  destruct (onDay_isHoliday k c Hon) as ([|] & -> & Hk);
    cbn [mbind outcome_bind].
  - destruct n as [|n].
    + rewrite Nat.add_0_r in Hfree. congruence.
    + assert (Hnext : forall t, onDay (S k) (atTimeOf (stepDay dec c) t))
        by (intros t; now apply onDay_atTimeOf, onDay_step).
      destruct (IH n (S k) (atTimeOf (stepDay dec c)
                                     (if dec then stop else start)))
        as (c' & m & Hm & Hrun & Hon').
      * apply Hnext.
      * lia.
      * now rewrite Nat.add_succ_r in Hfree.
      * exists c', (S m). split; [lia|]. split.
        -- unfold stepDay in Hrun. destruct dec; exact Hrun.
        -- now rewrite Nat.add_succ_r.
  - exists c, 0%nat. split; [lia|]. split; [reflexivity|].
    now rewrite Nat.add_0_r.
Qed.

(** One workday costs at most [gap + 1] calendar days. *)
Lemma incrementWorkDay_onDay k c :
  onDay k c -> (k + S gap <= span)%nat ->
  exists c' k', incrementWorkDay fuel w c dec = Ret c' /\
    onDay k' c' /\ (k' <= k + S gap)%nat.
Proof.
  intros Hon Hk. unfold incrementWorkDay.
  destruct (workday_ahead (S k)) as (n & Hn & Hfree); [lia|].
  destruct (skipHolidays_onDay fuel n (S k) (stepDay dec c))
    as (c' & m & Hm & Hrun & Hon'); [now apply onDay_step|lia|exact Hfree|].
  exists c', (S k + m)%nat. split; [exact Hrun|]. split; [exact Hon'|lia].
Qed.

Lemma repeatM_onDay (f : Date -> outcome Date) (cost : nat) :
  (forall k c, onDay k c -> (k + cost <= span)%nat ->
     exists c' k', f c = Ret c' /\ onDay k' c' /\ (k' <= k + cost)%nat) ->
  forall n k c, onDay k c -> (k + n * cost <= span)%nat ->
    exists c' k', repeatM n f c = Ret c' /\
      onDay k' c' /\ (k' <= k + n * cost)%nat.
Proof.
  intros Hf. induction n as [|n IH]; intros k c Hon Hk.
  - exists c, k. split; [reflexivity|]. split; [exact Hon|lia].
  - cbn [repeatM].
    destruct (Hf k c Hon) as (c1 & k1 & -> & Hon1 & Hk1); [lia|].
    cbn [mbind outcome_bind].
    destruct (IH k1 c1 Hon1) as (c2 & k2 & Hrun & Hon2 & Hk2); [lia|].
    exists c2, k2. split; [exact Hrun|]. split; [exact Hon2|lia].
Qed.

Lemma incrementWorkWeek_onDay k c :
  onDay k c -> (k + 5 * S gap <= span)%nat ->
  exists c' k', incrementWorkWeek fuel w c dec = Ret c' /\
    onDay k' c' /\ (k' <= k + 5 * S gap)%nat.
Proof.
  intros Hon Hk. unfold incrementWorkWeek.
  change (Z.to_nat WORKWEEK_DURATION) with 5%nat.
  apply (repeatM_onDay _ (S gap) incrementWorkDay_onDay 5 k c Hon Hk).
Qed.

Lemma addRemainingMinutes_onDay start stop minutes k c :
  dec = false -> onDay k c -> (k + 2 * S gap <= span)%nat ->
  exists r, addRemainingMinutes fuel w start stop minutes c = Ret r.
Proof.
  intros Hdec Hon Hk. unfold addRemainingMinutes.
  assert (Hstep : forall k c, onDay k c -> (k + S gap <= span)%nat ->
            exists c' k', incrementWorkDay fuel w c false = Ret c' /\
              onDay k' c' /\ (k' <= k + S gap)%nat)
    by (rewrite <- Hdec; apply incrementWorkDay_onDay).
  assert (Hfirst : exists c1 k1,
            (if convertToMinutes (getTime stop) <=? convertToMinutes (getTime c)
             then current ← incrementWorkDay fuel w c false;
                  Ret (atTimeOf current start)
             else if convertToMinutes (getTime c) <? convertToMinutes (getTime start)
                  then Ret (atTimeOf c start) else Ret c) = Ret c1 /\
            onDay k1 c1 /\ (k1 <= k + S gap)%nat).
  { destruct (convertToMinutes (getTime stop) <=? convertToMinutes (getTime c)).
    - destruct (Hstep k c Hon) as (c1 & k1 & -> & Hon1 & Hk1); [lia|].
      exists (atTimeOf c1 start), k1. split; [reflexivity|].
      split; [now apply onDay_atTimeOf|lia].
    - destruct (convertToMinutes (getTime c) <? convertToMinutes (getTime start)).
      + exists (atTimeOf c start), k. split; [reflexivity|].
        split; [now apply onDay_atTimeOf|lia].
      + exists c, k. split; [reflexivity|]. split; [exact Hon|lia]. }
  destruct Hfirst as (c1 & k1 & -> & Hon1 & Hk1). cbn [mbind outcome_bind].
  destruct (_ <=? _).
  - destruct (addMinutes _ _). eexists. reflexivity.
  - destruct (Hstep k1 c1 Hon1) as (c2 & k2 & -> & _ & _); [lia|].
    cbn [mbind outcome_bind]. destruct (addMinutes _ _). eexists. reflexivity.
Qed.

Lemma removeRemainingMinutes_onDay start stop minutes k c :
  dec = true -> onDay k c -> (k + 2 * S gap <= span)%nat ->
  exists r, removeRemainingMinutes fuel w start stop minutes c = Ret r.
Proof.
  intros Hdec Hon Hk. unfold removeRemainingMinutes.
  assert (Hstep : forall k c, onDay k c -> (k + S gap <= span)%nat ->
            exists c' k', incrementWorkDay fuel w c true = Ret c' /\
              onDay k' c' /\ (k' <= k + S gap)%nat)
    by (rewrite <- Hdec; apply incrementWorkDay_onDay).
  assert (Hfirst : exists c1 k1,
            (if convertToMinutes (getTime stop) <=? convertToMinutes (getTime c)
             then Ret (atTimeOf c stop)
             else if convertToMinutes (getTime c) <? convertToMinutes (getTime start)
                  then current ← incrementWorkDay fuel w c true;
                       Ret (atTimeOf current stop)
                  else Ret c) = Ret c1 /\
            onDay k1 c1 /\ (k1 <= k + S gap)%nat).
  { destruct (convertToMinutes (getTime stop) <=? convertToMinutes (getTime c)).
    - exists (atTimeOf c stop), k. split; [reflexivity|].
      split; [now apply onDay_atTimeOf|lia].
    - destruct (convertToMinutes (getTime c) <? convertToMinutes (getTime start)).
      + destruct (Hstep k c Hon) as (c1 & k1 & -> & Hon1 & Hk1); [lia|].
        exists (atTimeOf c1 stop), k1. split; [reflexivity|].
        split; [now apply onDay_atTimeOf|lia].
      + exists c, k. split; [reflexivity|]. split; [exact Hon|lia]. }
  destruct Hfirst as (c1 & k1 & -> & Hon1 & Hk1). cbn [mbind outcome_bind].
  destruct (_ <=? _).
  - destruct (subtractMinutes _ _). eexists. reflexivity.
  - destruct (Hstep k1 c1 Hon1) as (c2 & k2 & -> & _ & _); [lia|].
    cbn [mbind outcome_bind]. destruct (subtractMinutes _ _).
    eexists. reflexivity.
Qed.

End Termination.

Section TerminationTheorem.

Import Gregorian Workday.

Lemma static_cast_long_range x v :
  Float32.static_cast_long x = Ret v ->
  Float32.long_min <= v <= Float32.long_max.
Proof.
  unfold Float32.static_cast_long, Float32.long_min, Float32.long_max.
  destruct x as [s|s| |s m e]; try discriminate.
  - intros [= <-]. lia.
  - cases_cmp; try discriminate. intros [= <-]. lia.
Qed.

Lemma whole_workdays_split workDays :
  (5 * Z.to_nat (Z.quot workDays WORKWEEK_DURATION)
   + Z.to_nat (Z.rem workDays WORKWEEK_DURATION) <= Z.to_nat workDays)%nat.
Proof.
  unfold WORKWEEK_DURATION. Z.to_euclidean_division_equations. lia.
Qed.

End TerminationTheorem.




Section NeverAWorkday.

Import Gregorian Workday Examples.

Lemma isHoliday_recurring cal d :
  1 <= month_ d <= 12 ->
  (getMonth d, getDay d) ∈ recurring_holidays_ cal ->
  Gregorian.isHoliday cal d = Ret true.
Proof.
  intros Hm Hin. unfold Gregorian.isHoliday.
  destruct (dayOfWeek_defined d Hm) as [v ->]. cbn [mbind outcome_bind].
  destruct (_ || _); [reflexivity|].
  destruct (bool_decide (getDate d ∈ holidays_ cal)); [reflexivity|].
  rewrite (bool_decide_eq_true_2 _ Hin). reflexivity.
Qed.

Lemma alwaysHoliday_recurring m dd :
  1 <= m <= 12 -> 1 <= dd <= daysInMonth 2024 m ->
  (m, dd) ∈ recurring_holidays_ (calendar_ alwaysHoliday).
Proof.
  intros Hm Hd.
  assert (Hall : List.forallb
            (fun p => bool_decide
                        (p ∈ recurring_holidays_ (calendar_ alwaysHoliday)))
            (List.flat_map
               (fun m => List.map (fun dd => (m, dd))
                                  (seqZ 1 (daysInMonth 2024 m)))
               (seqZ 1 12)) = true)
    by (vm_compute; reflexivity).
  rewrite List.forallb_forall in Hall.
  specialize (Hall (m, dd)).
  apply bool_decide_eq_true in Hall; [exact Hall|].
  apply List.in_flat_map. exists m. split.
  - apply list_elem_of_In, elem_of_seqZ. lia.
  - apply List.in_map, list_elem_of_In, elem_of_seqZ. lia.
Qed.

Local Abbreviation dayOk := Spec.monthDay.

Lemma daysInMonth_le_leap y m : daysInMonth y m <= daysInMonth 2024 m.
Proof.
  unfold daysInMonth. change (isLeapYear 2024) with true.
  destruct (isLeapYear y); destruct m as [|p|p]; try lia;
    do 5 (try (destruct p as [p|p|]; try lia)).
Qed.

Lemma addDay_dayOk c : dayOk c -> dayOk (addDay c).
Proof.
  unfold Spec.monthDay. intros [Hm Hd].
  pose proof (daysInMonth_le_leap (year_ c) (month_ c)) as Hle.
  pose proof (daysInMonth_bounds 2024 (month_ c)) as Hb.
  unfold addDay, setDate, getYear, getMonth, getDay, getHours, getMinutes.
  rewrite (int_add_small (day_ c) 1), (int_add_small (month_ c) 1)
    by (unfold in_int, int_min, int_max; lia).
  cases_cmp; cbn [month_ day_].
  - split; [lia|]. cbn. lia.
  - split; [lia|].
    pose proof (daysInMonth_bounds 2024 (month_ c + 1)). lia.
  - split; lia.
Qed.

Lemma moveToFirstWorkday_alwaysHoliday fuel start stop c :
  dayOk c ->
  moveToFirstWorkday fuel (calendar_ alwaysHoliday) start stop false c =
    Diverge.
Proof.
  revert c. induction fuel as [|fuel IH]; intros c Hok; [reflexivity|].
  cbn [moveToFirstWorkday].
  rewrite isHoliday_recurring;
    [|apply Hok|apply alwaysHoliday_recurring; apply Hok].
  cbn [mbind outcome_bind]. apply IH.
  destruct (addDay_dayOk c Hok) as [Hm Hd]. split; assumption.
Qed.

End NeverAWorkday.



(** ** Vectors of the repository's test suite

    The embedding is run on inputs of [WorkdayIncrementTest]; the [float]
    arguments are the binary32 values nearest to the decimal literals. *)

(** 44.723656 workdays from 2004-05-24 19:03, with a one-time holiday on
    2004-05-27 and a recurring one on May 17. *)
Example suite_long_increment :
  Workday.getWorkdayIncrement 5
    (Workday.setRecurringHoliday
       (Workday.setHoliday Examples.eightToFour (mkDate 2004 5 27 0 0))
       (mkDate 2004 5 17 0 0))
    (mkDate 2004 5 24 19 3) (Float32.of_Z_pow2 11724038 (-18))
  = Ret (mkDate 2004 7 27 13 47).
Proof. vm_compute. reflexivity. Qed.

(** -6.7470217 workdays from 2004-05-24 18:03, same holidays. *)
Example suite_long_decrement :
  Workday.getWorkdayIncrement 5
    (Workday.setRecurringHoliday
       (Workday.setHoliday Examples.eightToFour (mkDate 2004 5 27 0 0))
       (mkDate 2004 5 17 0 0))
    (mkDate 2004 5 24 18 3)
    (Float32.neg (Float32.of_Z_pow2 14149530 (-21)))
  = Ret (mkDate 2004 5 13 10 2).
Proof. vm_compute. reflexivity. Qed.

(** One workday back from 2024-07-05 09:00 across the holiday
    2024-07-04. *)
Example suite_decrement_across_holiday :
  Workday.getWorkdayIncrement 5
    (Workday.setHoliday Examples.eightToFour (mkDate 2024 7 4 0 0))
    (mkDate 2024 7 5 9 0) (Float32.neg Examples.f_1)
  = Ret (mkDate 2024 7 3 9 0).
Proof. vm_compute. reflexivity. Qed.

(** One workday from Saturday 2024-05-11 09:00. *)
Example suite_weekend_start :
  Workday.getWorkdayIncrement 5 Examples.eightToFour
    (mkDate 2024 5 11 9 0) Examples.f_1
  = Ret (mkDate 2024 5 14 8 0).
Proof. vm_compute. reflexivity. Qed.

(** Three workdays from 2024-12-30 09:00, into the next year. *)
Example suite_across_new_year :
  Workday.getWorkdayIncrement 5 Examples.eightToFour
    (mkDate 2024 12 30 9 0) (Float32.of_long 3)
  = Ret (mkDate 2025 1 2 9 0).
Proof. vm_compute. reflexivity. Qed.

(** No configuration: the all-(-1) date. *)
Example suite_unconfigured :
  Workday.getWorkdayIncrement 5 Workday.new
    (mkDate 2024 5 20 8 0) (Float32.of_Z_pow2 7 (-1))
  = Ret (mkDate (-1) (-1) (-1) (-1) (-1)).
Proof. vm_compute. reflexivity. Qed.

(* ===================================================================== *)
(** * Further properties of the code *)
(* ===================================================================== *)

(** As [unwrap], trying every occurrence of a wrapped operation. *)
Ltac unwrap_any :=
  repeat match goal with
         | |- context [int_add ?a ?b] =>
             rewrite (int_add_small a b)
               by (unfold in_int, int_min, int_max; lia)
         | |- context [int_sub ?a ?b] =>
             rewrite (int_sub_small a b)
               by (unfold in_int, int_min, int_max; lia)
         | |- context [int_mul ?a ?b] =>
             rewrite (int_mul_small a b)
               by (unfold in_int, int_min, int_max; lia)
         end.

(** ** The text of a date *)

Section DateTextFacts.

Import Gregorian.

Lemma append_inj_length (a a' b b' : string) :
  String.length a = String.length a' ->
  String.append a b = String.append a' b' -> a = a' /\ b = b'.
Proof.
  revert a'. induction a as [|c a IH]; intros [|c' a'] Hlen Heq;
    try discriminate.
  - auto.
  - change (String c (String.append a b) = String c' (String.append a' b'))
      in Heq.
    injection Hlen as Hlen. injection Heq as -> Heq.
    destruct (IH a' Hlen Heq) as [-> ->]. auto.
Qed.

Lemma length_append (a b : string) :
  String.length (String.append a b) = (String.length a + String.length b)%nat.
Proof.
  induction a as [|c a IH]; [reflexivity|].
  change (String.append (String c a) b) with (String c (String.append a b)).
  cbn [String.length Nat.add]. f_equal. exact IH.
Qed.

(** Reading a run of decimal digits back as a number. *)
Local Abbreviation digits_value s :=
  (option_map Z.of_uint (NilEmpty.uint_of_string s)).

Lemma digits_value_zeros k s :
  digits_value (String.append (string_of_list_ascii (List.repeat "0"%char k)) s)
  = digits_value s.
Proof.
  induction k as [|k IH]; [reflexivity|].
  change (String.append
            (string_of_list_ascii (List.repeat "0"%char (S k))) s)
    with (String "0" (String.append
            (string_of_list_ascii (List.repeat "0"%char k)) s)).
  cbn [NilEmpty.uint_of_string]. rewrite <- IH.
  destruct (NilEmpty.uint_of_string _) as [u|]; reflexivity.
Qed.

Lemma digits_value_show_int y : 0 <= y -> digits_value (show_int y) = Some y.
Proof.
  intros Hy. unfold show_int.
  pose proof (DecimalZ.of_to y) as Hof.
  destruct (Z.to_int y) as [u|u] eqn:E.
  - cbn [NilZero.string_of_int Z.of_int] in *. unfold NilZero.string_of_uint.
    destruct u; try (rewrite NilEmpty.usu; cbn [option_map]; congruence).
    cbn. rewrite <- Hof. reflexivity.
  - exfalso. destruct y; cbn in E; try discriminate. lia.
Qed.

(** A year that is not negative can be read back from its padded text. *)
Lemma setw_fill0_show_int_inj w y y' :
  0 <= y -> 0 <= y' ->
  setw_fill0 w (show_int y) = setw_fill0 w (show_int y') -> y = y'.
Proof.
  intros Hy Hy' Heq.
  assert (H : digits_value (setw_fill0 w (show_int y)) =
              digits_value (setw_fill0 w (show_int y'))) by now rewrite Heq.
  unfold setw_fill0 in H.
  rewrite !digits_value_zeros, !digits_value_show_int in H by assumption.
  congruence.
Qed.

(** Numbers from 0 to 99 take exactly two characters under
    [setw(2)] with fill ['0']. *)
Lemma setw_fill0_two_digits n :
  0 <= n < 100 -> String.length (setw_fill0 2 (show_int n)) = 2%nat.
Proof.
  intros Hn.
  assert (Hall : List.forallb
            (fun n => Nat.eqb (String.length (setw_fill0 2 (show_int n))) 2)
            (seqZ 0 100) = true) by (vm_compute; reflexivity).
  rewrite List.forallb_forall in Hall.
  apply Nat.eqb_eq, Hall, list_elem_of_In, elem_of_seqZ. lia.
Qed.

Lemma getDate_date_only d d' : Spec.sameDay d d' -> getDate d = getDate d'.
Proof.
  destruct d, d'. unfold Spec.sameDay. cbn. intros (-> & -> & ->). reflexivity.
Qed.

Lemma getDate_inj d d' :
  isValidDate d = true -> isValidDate d' = true ->
  getDate d = getDate d' -> Spec.sameDay d d'.
Proof.
  intros (Hy & Hm & Hd & _)%isValidDate_true
         (Hy' & Hm' & Hd' & _)%isValidDate_true Heq.
  pose proof (daysInMonth_bounds (year_ d) (month_ d)).
  pose proof (daysInMonth_bounds (year_ d') (month_ d')).
  assert (Lm : String.length (setw_fill0 2 (show_int (month_ d))) = 2%nat)
    by (apply setw_fill0_two_digits; lia).
  assert (Lm' : String.length (setw_fill0 2 (show_int (month_ d'))) = 2%nat)
    by (apply setw_fill0_two_digits; lia).
  assert (Ld : String.length (setw_fill0 2 (show_int (day_ d))) = 2%nat)
    by (apply setw_fill0_two_digits; lia).
  assert (Ld' : String.length (setw_fill0 2 (show_int (day_ d'))) = 2%nat)
    by (apply setw_fill0_two_digits; lia).
  unfold getDate in Heq.
  assert (Hlen := f_equal String.length Heq).
  rewrite !length_append, Lm, Lm', Ld, Ld' in Hlen. cbn in Hlen.
  apply append_inj_length in Heq as [Hyear Heq]; [|lia].
  apply (append_inj_length "-" "-") in Heq as [_ Heq]; [|reflexivity].
  apply append_inj_length in Heq as [Hmonth Heq]; [|lia].
  apply (append_inj_length "-" "-") in Heq as [_ Heq]; [|reflexivity].
  apply append_inj_length in Heq as [Hday _]; [|lia].
  repeat split; eapply setw_fill0_show_int_inj; try eassumption; lia.
Qed.

End DateTextFacts.

(** ** Registering holidays *)

Section RegistrationFacts.

Import Gregorian.

Lemma isHoliday_cases cal d v :
  dayOfWeek d = Ret v ->
  Gregorian.isHoliday cal d =
    Ret ((v =? 0) || (v =? 6)
         || bool_decide (getDate d ∈ holidays_ cal)
         || bool_decide ((getMonth d, getDay d) ∈ recurring_holidays_ cal)).
Proof.
  intros Hv. unfold Gregorian.isHoliday. rewrite Hv. cbn [mbind outcome_bind].
  destruct ((v =? 0) || (v =? 6)); [reflexivity|]. cbn [orb].
  destruct (bool_decide (getDate d ∈ holidays_ cal)); [reflexivity|].
  cbn [orb].
  destruct (bool_decide ((getMonth d, getDay d) ∈ recurring_holidays_ cal));
    reflexivity.
Qed.

Lemma Ret_eq_iff {A} (a b : A) : Ret a = Ret b <-> a = b.
Proof. split; [intros [= ->] | intros ->]; reflexivity. Qed.

Lemma setHoliday_isHoliday_iff cal d x :
  isValidDate d = true -> 1 <= month_ x <= 12 ->
  (Gregorian.isHoliday (setHoliday cal d) x = Ret true <->
   Gregorian.isHoliday cal x = Ret true \/ getDate x = getDate d).
Proof.
  intros Hd Hx. destruct (dayOfWeek_defined x Hx) as [v Hv].
  rewrite !(isHoliday_cases _ x v Hv). unfold setHoliday. rewrite Hd.
  cbn [holidays_ recurring_holidays_].
  destruct ((v =? 0) || (v =? 6)); cbn [orb]; [tauto|].
  destruct (bool_decide ((getMonth x, getDay x) ∈ recurring_holidays_ cal));
    rewrite ?orb_true_r; [tauto|]. rewrite !orb_false_r.
  rewrite !Ret_eq_iff, !bool_decide_eq_true.
  rewrite elem_of_union, elem_of_singleton. tauto.
Qed.

Lemma setRecurringHoliday_isHoliday_iff cal d x :
  isValidDate d = true -> 1 <= month_ x <= 12 ->
  (Gregorian.isHoliday (setRecurringHoliday cal d) x = Ret true <->
   Gregorian.isHoliday cal x = Ret true \/
   (month_ x = month_ d /\ day_ x = day_ d)).
Proof.
  intros Hd Hx. destruct (dayOfWeek_defined x Hx) as [v Hv].
  rewrite !(isHoliday_cases _ x v Hv). unfold setRecurringHoliday. rewrite Hd.
  cbn [holidays_ recurring_holidays_].
  destruct ((v =? 0) || (v =? 6)); cbn [orb]; [tauto|].
  destruct (bool_decide (getDate x ∈ holidays_ cal)); cbn [orb]; [tauto|].
  rewrite !Ret_eq_iff, !bool_decide_eq_true.
  unfold getMonth, getDay. rewrite elem_of_union, elem_of_singleton.
  split.
  - intros [H|H]; [right; injection H as -> ->; auto | left; exact H].
  - intros [H|[-> ->]]; [right; exact H | left; reflexivity].
Qed.

End RegistrationFacts.

(** X1. A valid date registered with [setHoliday] is a holiday from then
    on, whatever the time of day of the date asked about; the engine's
    pass-through behaves the same and keeps the workday times. *)
Theorem setHoliday_then_isHoliday
  (cal : GregorianCalendar) (w : WorkdayCalendar) (d x : Date) :
  Gregorian.isValidDate d = true ->
  Spec.sameDay d x ->
  Gregorian.isHoliday (Gregorian.setHoliday cal d) x = Ret true /\
  Workday.isHoliday (Workday.setHoliday w d) x = Ret true /\
  Workday.getWorkdayStart (Workday.setHoliday w d) = Workday.getWorkdayStart w /\
  Workday.getWorkdayStop (Workday.setHoliday w d) = Workday.getWorkdayStop w.
Proof.
  intros Hd Hsame.
  assert (Hm : 1 <= month_ x <= 12).
  { destruct Hsame as (_ & <- & _). apply isValidDate_true in Hd. tauto. }
  assert (Hkey : getDate x = getDate d)
    by (symmetry; now apply getDate_date_only).
  split; [|split; [|split]]; try reflexivity.
  - apply setHoliday_isHoliday_iff; auto.
  - unfold Workday.isHoliday, Workday.setHoliday. cbn [calendar_].
    apply setHoliday_isHoliday_iff; auto.
Qed.

Lemma setHoliday_then_isHoliday_witness :
  Gregorian.isHoliday
    (Gregorian.setHoliday Gregorian.new (mkDate 2024 7 4 0 0))
    (mkDate 2024 7 4 9 30) = Ret true.
Proof.
  apply (setHoliday_then_isHoliday Gregorian.new Workday.new
           (mkDate 2024 7 4 0 0) (mkDate 2024 7 4 9 30)).
  - reflexivity.
  - repeat split.
Defined.

(** X2. A one-time holiday marks its own calendar day and no other:
    after registering the valid date [d], a valid date [x] is a holiday
    exactly when it was one before or lies on the day of [d]. *)
Theorem setHoliday_marks_one_day (cal : GregorianCalendar) (d x : Date) :
  Gregorian.isValidDate d = true ->
  Gregorian.isValidDate x = true ->
  (Gregorian.isHoliday (Gregorian.setHoliday cal d) x = Ret true <->
   Gregorian.isHoliday cal x = Ret true \/ Spec.sameDay d x).
Proof.
  intros Hd Hx.
  assert (Hm : 1 <= month_ x <= 12) by (apply isValidDate_true in Hx; tauto).
  rewrite (setHoliday_isHoliday_iff cal d x Hd Hm).
  split; (intros [H|H]; [now left | right]).
  - apply getDate_inj; auto.
  - symmetry. now apply getDate_date_only.
Qed.

Lemma setHoliday_marks_one_day_witness :
  Gregorian.isHoliday
    (Gregorian.setHoliday Gregorian.new (mkDate 2024 7 4 0 0))
    (mkDate 2024 7 5 9 0) <> Ret true.
Proof.
  intros H.
  apply (setHoliday_marks_one_day Gregorian.new (mkDate 2024 7 4 0 0)
           (mkDate 2024 7 5 9 0) eq_refl eq_refl) in H.
  destruct H as [H | (_ & _ & H)]; [vm_compute in H|cbn in H]; congruence.
Defined.

(** X3. A recurring holiday marks its month and day in every year:
    after registering the valid date [d], a date [x] with a month in
    1..12 is a holiday exactly when it was one before or has the month
    and the day of [d]. *)
Theorem setRecurringHoliday_marks_every_year
  (cal : GregorianCalendar) (d x : Date) :
  Gregorian.isValidDate d = true ->
  1 <= month_ x <= 12 ->
  (Gregorian.isHoliday (Gregorian.setRecurringHoliday cal d) x = Ret true <->
   Gregorian.isHoliday cal x = Ret true \/
   (month_ x = month_ d /\ day_ x = day_ d)).
Proof. apply setRecurringHoliday_isHoliday_iff. Qed.

Lemma setRecurringHoliday_marks_every_year_witness :
  Gregorian.isHoliday
    (Gregorian.setRecurringHoliday Gregorian.new (mkDate 2024 12 25 0 0))
    (mkDate 2031 12 25 9 0) = Ret true.
Proof.
  apply (setRecurringHoliday_marks_every_year Gregorian.new
           (mkDate 2024 12 25 0 0) (mkDate 2031 12 25 9 0) eq_refl).
  - cbn. lia.
  - right. split; reflexivity.
Defined.

(** X4. Registration only ever adds: a date that is a holiday stays one
    after any [setHoliday] or [setRecurringHoliday], and a registration
    with an invalid date changes neither the calendar nor the engine. *)
Theorem registration_only_adds
  (cal : GregorianCalendar) (w : WorkdayCalendar) (d x : Date) :
  (Gregorian.isHoliday cal x = Ret true ->
     Gregorian.isHoliday (Gregorian.setHoliday cal d) x = Ret true /\
     Gregorian.isHoliday (Gregorian.setRecurringHoliday cal d) x = Ret true) /\
  (Gregorian.isValidDate d = false ->
     Gregorian.setHoliday cal d = cal /\
     Gregorian.setRecurringHoliday cal d = cal /\
     Workday.setHoliday w d = w /\
     Workday.setRecurringHoliday w d = w).
Proof.
  split.
  - intros Hx. unfold Gregorian.setHoliday, Gregorian.setRecurringHoliday.
    destruct (Gregorian.isValidDate d); [|auto].
    destruct (dayOfWeek x) as [v| |] eqn:Hv;
      try (unfold Gregorian.isHoliday in Hx; rewrite Hv in Hx; discriminate).
    rewrite !(isHoliday_cases _ x v Hv) in *.
    cbn [holidays_ recurring_holidays_].
    injection Hx as Hx. rewrite !Ret_eq_iff.
    destruct ((v =? 0) || (v =? 6)); cbn [orb] in *; [auto|].
    rewrite orb_true_iff, !bool_decide_eq_true in Hx.
    split; rewrite orb_true_iff, !bool_decide_eq_true, elem_of_union; tauto.
  - intros Hd. unfold Workday.setHoliday, Workday.setRecurringHoliday,
      Gregorian.setHoliday, Gregorian.setRecurringHoliday. rewrite Hd.
    destruct w; auto.
Qed.

Lemma registration_only_adds_witness :
  Gregorian.isHoliday
    (Gregorian.setRecurringHoliday
       (Gregorian.setHoliday Gregorian.new (mkDate 2024 7 4 0 0))
       (mkDate 2024 12 25 0 0))
    (mkDate 2024 7 4 9 0) = Ret true /\
  Gregorian.setHoliday Gregorian.new (mkDate 2024 (-5) 20 8 0) = Gregorian.new.
Proof.
  split.
  - apply (registration_only_adds
             (Gregorian.setHoliday Gregorian.new (mkDate 2024 7 4 0 0))
             Workday.new (mkDate 2024 12 25 0 0) (mkDate 2024 7 4 9 0)).
    vm_compute. reflexivity.
  - apply (registration_only_adds Gregorian.new Workday.new
             (mkDate 2024 (-5) 20 8 0) (mkDate 2024 7 4 9 0)).
    reflexivity.
Defined.

(** ** Day of the week *)

Section DayOfWeekFacts.

Import Gregorian.

Ltac month_split Hm :=
  destruct (month_cases _ Hm) as
    [->|[->|[->|[->|[->|[->|[->|[->|[->|[->|[->| ->]]]]]]]]]]].

Ltac eval_to_nat :=
  repeat match goal with
         | |- context [Z.to_nat ?e] =>
             let v := eval vm_compute in (Z.to_nat e) in
             change (Z.to_nat e) with v
         end.

(** The leap-day count that the formula of [dayOfWeek] adds up. *)
Lemma leapYearsBefore_quot z :
  0 <= z ->
  Spec.leapYearsBefore (z + 1) = Z.quot z 4 - Z.quot z 100 + Z.quot z 400 + 1.
Proof.
  intros Hz. unfold Spec.leapYearsBefore.
  Z.to_euclidean_division_equations; lia.
Qed.

Lemma dayOfWeek_dayNumber d :
  isValidDate d = true -> year_ d <= 1700000000 ->
  dayOfWeek d =
    Ret ((Spec.dayNumber d
          + (if (year_ d =? 0) && (month_ d <? 3) then 0 else 6)) mod 7).
Proof.
  destruct d as [y m dd h mi].
  intros (Hy & Hm & Hd & _)%isValidDate_true Hmax.
  cbn [year_ month_ day_] in *.
  pose proof (daysInMonth_bounds y m) as Hb.
  unfold dayOfWeek. cbn [year_ month_ day_].
  assert (Hlate : forall k, 0 <= k <= 1 -> 1 <= y \/ k = 0 ->
            Spec.leapYearsBefore y
            = Z.quot (y - k) 4 - Z.quot (y - k) 100 + Z.quot (y - k) 400 + 1
              - (if Z.eqb k 0 then if isLeapYear y then 1 else 0 else 0)).
  { intros k Hk Hyk. destruct (Z.eqb_spec k 0) as [->|Hk0].
    - rewrite Z.sub_0_r, <- leapYearsBefore_quot by lia.
      rewrite leapYearsBefore_succ. lia.
    - assert (k = 1) as -> by lia.
      rewrite <- leapYearsBefore_quot by lia.
      replace (y - 1 + 1) with y by lia. lia. }
  destruct (Z.eq_dec y 0) as [->|Hy0].
  - (* year 0 *)
    month_split Hm; cbn [daysInMonth] in Hd;
      change (isLeapYear 0) with true in *;
      match goal with
      | |- context [t_at ?i] =>
          let v := eval vm_compute in (t_at i) in change (t_at i) with v
      end;
      cbn [mbind outcome_bind Z.ltb Z.eqb andb Z.compare Pos.compare
           Pos.compare_cont];
      match goal with
      | |- context [int_sub 0 ?k] =>
          let v := eval vm_compute in (int_sub 0 k) in
          change (int_sub 0 k) with v
      end;
      repeat match goal with
             | |- context [Z.quot ?a ?b] =>
                 let v := eval vm_compute in (Z.quot a b) in
                 change (Z.quot a b) with v
             end;
      unwrap_any; f_equal;
      unfold Spec.dayNumber, Spec.daysBeforeMonth, Spec.monthTable;
      cbn [year_ month_ day_]; eval_to_nat;
      vm_compute (Spec.isLeapYear 0); vm_compute (Spec.leapYearsBefore 0);
      cbn [List.firstn List.fold_right];
      Z.to_euclidean_division_equations; lia.
  - destruct (Z.eqb_spec y 0) as [|_]; [contradiction|]. cbn [andb].
    month_split Hm;
      match goal with
      | |- context [t_at ?i] =>
          let v := eval vm_compute in (t_at i) in change (t_at i) with v
      end;
      cbn [mbind outcome_bind Z.ltb Z.compare Pos.compare Pos.compare_cont];
      match goal with
      | |- context [int_sub y ?k] =>
          rewrite (int_sub_small y k)
            by (unfold in_int, int_min, int_max; lia);
          pose proof (Hlate k ltac:(lia) ltac:(lia)) as HL;
          cbn [Z.eqb] in HL;
          assert (H4 : 0 <= Z.quot (y - k) 4 <= 425000000)
            by (Z.to_euclidean_division_equations; lia);
          assert (H100 : 0 <= Z.quot (y - k) 100 <= 17000000)
            by (Z.to_euclidean_division_equations; lia);
          assert (H400 : 0 <= Z.quot (y - k) 400 <= 4250000)
            by (Z.to_euclidean_division_equations; lia);
          assert (Hle : Z.quot (y - k) 100 <= Z.quot (y - k) 4)
            by (Z.to_euclidean_division_equations; lia);
          set (q4 := Z.quot (y - k) 4) in *;
          set (q100 := Z.quot (y - k) 100) in *;
          set (q400 := Z.quot (y - k) 400) in *;
          clearbody q4 q100 q400
      end;
      unwrap_any; f_equal;
      unfold Spec.dayNumber, Spec.daysBeforeMonth, Spec.monthTable;
      cbn [year_ month_ day_]; eval_to_nat;
      rewrite <- ?isLeapYear_rule; rewrite HL;
      cbn [List.firstn List.fold_right];
      destruct (isLeapYear y); cbn [daysInMonth] in Hd;
      Z.to_euclidean_division_equations; lia.
Qed.

End DayOfWeekFacts.

(** ** Stepping through valid dates *)

Section ValidStepFacts.

Import Gregorian.

Ltac month_split Hm :=
  destruct (month_cases _ Hm) as
    [->|[->|[->|[->|[->|[->|[->|[->|[->|[->|[->| ->]]]]]]]]]]].

Ltac eval_months :=
  repeat match goal with
         | |- context [Z.pos ?p - 1] =>
             let v := eval vm_compute in (Z.pos p - 1) in
             change (Z.pos p - 1) with v
         | |- context [Z.pos ?p + 1] =>
             let v := eval vm_compute in (Z.pos p + 1) in
             change (Z.pos p + 1) with v
         end;
  cbn [daysInMonth].

Lemma addDay_valid d :
  isValidDate d = true -> year_ d < int_max ->
  isValidDate (addDay d) = true /\
  year_ d <= year_ (addDay d) <= year_ d + 1.
Proof.
  destruct d as [y m dd h mi].
  intros (Hy & Hm & Hd & Hh & Hmi)%isValidDate_true Hmax.
  cbn [year_ month_ day_ hour_ minute_] in *. unfold int_max in Hmax.
  rewrite isValidDate_true.
  unfold addDay, setDate, getYear, getMonth, getDay, getHours, getMinutes.
  cbn [year_ month_ day_ hour_ minute_].
  month_split Hm; cbn [daysInMonth] in *;
    destruct (isLeapYear y) eqn:El; unwrap; cases_cmp; try lia;
    cbn [year_ month_ day_ hour_ minute_]; eval_months; rewrite ?El; lia.
Qed.

Lemma removeDay_valid d :
  isValidDate d = true -> in_int (year_ d) ->
  ~ (year_ d = 0 /\ month_ d = 1 /\ day_ d = 1) ->
  isValidDate (removeDay d) = true /\
  year_ d - 1 <= year_ (removeDay d) <= year_ d.
Proof.
  destruct d as [y m dd h mi].
  intros (Hy & Hm & Hd & Hh & Hmi)%isValidDate_true Hmax Hfirst.
  cbn [year_ month_ day_ hour_ minute_] in *.
  unfold in_int, int_min, int_max in Hmax.
  rewrite isValidDate_true.
  unfold removeDay, setDate, getYear, getMonth, getDay, getHours, getMinutes.
  cbn [year_ month_ day_ hour_ minute_].
  month_split Hm; cbn [daysInMonth] in *;
    destruct (isLeapYear y) eqn:El; unwrap; cases_cmp; try lia;
    cbn [year_ month_ day_ hour_ minute_]; eval_months; rewrite ?El; lia.
Qed.

Lemma stepDay_valid dec d :
  isValidDate d = true -> 1 <= year_ d < int_max ->
  isValidDate (Workday.stepDay dec d) = true /\
  year_ d - 1 <= year_ (Workday.stepDay dec d) <= year_ d + 1.
Proof.
  intros Hv Hy. unfold Workday.stepDay. destruct dec.
  - destruct (removeDay_valid d Hv) as [Hv' Hy'];
      [unfold in_int, int_min, int_max in *; lia | lia |].
    split; [exact Hv' | lia].
  - destruct (addDay_valid d Hv) as [Hv' Hy']; [lia|].
    split; [exact Hv' | lia].
Qed.

Lemma dayOfWeek_stepDay dec d :
  isValidDate d = true -> 1 <= year_ d < 1700000000 ->
  exists v,
    dayOfWeek d = Ret v /\ 0 <= v <= 6 /\
    dayOfWeek (Workday.stepDay dec d) =
      Ret ((v + (if dec then 6 else 1)) mod 7).
Proof.
  intros Hv Hy.
  assert (Hmax : year_ d < int_max) by (unfold int_max; lia).
  destruct (stepDay_valid dec d Hv ltac:(lia)) as [Hv' Hy'].
  rewrite (dayOfWeek_dayNumber d Hv) by lia.
  rewrite (dayOfWeek_dayNumber _ Hv') by lia.
  destruct (Z.eqb_spec (year_ d) 0) as [|_]; [lia|]. cbn [andb].
  assert (Hoff : (if (year_ (Workday.stepDay dec d) =? 0)
                     && (month_ (Workday.stepDay dec d) <? 3)
                  then 0 else 6) = 6).
  { destruct (Z.eqb_spec (year_ (Workday.stepDay dec d)) 0) as [E0|];
      [|reflexivity].
    cbn [andb]. destruct (Z.ltb_spec (month_ (Workday.stepDay dec d)) 3);
      [|reflexivity].
    exfalso. destruct dec; unfold Workday.stepDay in *.
    - (* only December 31 of year 0 lies before January 1 of year 1 *)
      destruct d as [y m dd h mi].
      apply isValidDate_true in Hv. cbn [year_ month_ day_] in *.
      pose proof (daysInMonth_bounds y m).
      revert E0 H. unfold removeDay, setDate, getYear, getMonth, getDay.
      cbn [year_ month_ day_].
      rewrite (int_sub_small dd 1), (int_sub_small m 1), (int_sub_small y 1)
        by (unfold in_int, int_min, int_max; lia).
      cases_cmp; cbn [year_ month_]; lia.
    - destruct (addDay_valid d Hv Hmax) as [_ Hy'']. lia. }
  rewrite Hoff. eexists. split; [reflexivity|].
  split; [pose proof (Z.mod_pos_bound (Spec.dayNumber d + 6) 7); lia|].
  f_equal. unfold Workday.stepDay. destruct dec.
  - rewrite removeDay_dayNumber
      by (auto; unfold in_int, int_min, int_max; lia).
    Z.to_euclidean_division_equations; lia.
  - rewrite addDay_dayNumber by auto.
    Z.to_euclidean_division_equations; lia.
Qed.

End ValidStepFacts.

(** ** Where the holiday-skipping loops stop *)

Section LandingFacts.

Import Gregorian Workday.

Lemma skipHolidays_lands fuel cal dec c c' :
  skipHolidays fuel cal dec c = Ret c' ->
  exists n, (n < fuel)%nat /\
    c' = Nat.iter n (stepDay dec) c /\
    Gregorian.isHoliday cal c' = Ret false /\
    forall j, (j < n)%nat ->
      Gregorian.isHoliday cal (Nat.iter j (stepDay dec) c) = Ret true.
Proof.
  revert c. induction fuel as [|fuel IH]; intros c Hrun; [discriminate|].
  cbn [skipHolidays] in Hrun.
  destruct (Gregorian.isHoliday cal c) as [[|]| |] eqn:Hc;
    cbn [mbind outcome_bind] in Hrun; try discriminate.
  - destruct (IH _ Hrun) as (n & Hn & -> & Hfree & Hbefore).
    exists (S n). split; [lia|]. split; [now rewrite Nat.iter_succ_r|].
    split; [exact Hfree|].
    intros [|j] Hj; [exact Hc|].
    rewrite Nat.iter_succ_r. apply Hbefore. lia.
  - injection Hrun as <-. exists 0%nat. split; [lia|].
    split; [reflexivity|]. split; [exact Hc|]. intros j Hj. lia.
Qed.

Lemma iter_stepDay_time dec n c :
  hour_ (Nat.iter n (stepDay dec) c) = hour_ c /\
  minute_ (Nat.iter n (stepDay dec) c) = minute_ c.
Proof.
  induction n as [|n [IHh IHm]]; [auto|].
  cbn [Nat.iter nat_rect]. rewrite <- IHh, <- IHm.
  unfold stepDay at 1 3. destruct dec;
    [apply removeDay_time | apply addDay_time].
Qed.

Lemma moveToFirstWorkday_lands fuel cal start stop dec c c' :
  moveToFirstWorkday fuel cal start stop dec c = Ret c' ->
  Gregorian.isHoliday cal c' = Ret false /\
  ((Gregorian.isHoliday cal c = Ret false /\ c' = c) \/
   (Gregorian.isHoliday cal c = Ret true /\
    exists n, (1 <= n < fuel)%nat /\
      Spec.sameDay c' (Nat.iter n (stepDay dec) c) /\
      getTime c' = getTime (if dec then stop else start) /\
      forall j, (j < n)%nat ->
        Gregorian.isHoliday cal (Nat.iter j (stepDay dec) c) = Ret true)).
Proof.
  revert c. induction fuel as [|fuel IH]; intros c Hrun; [discriminate|].
  cbn [moveToFirstWorkday] in Hrun.
  destruct (Gregorian.isHoliday cal c) as [[|]| |] eqn:Hc;
    cbn [mbind outcome_bind] in Hrun; try discriminate.
  - assert (Hrun' : moveToFirstWorkday fuel cal start stop dec
                      (atTimeOf (stepDay dec c) (if dec then stop else start))
                    = Ret c')
      by (unfold stepDay; destruct dec; exact Hrun).
    clear Hrun.
    assert (Hpos : (0 < fuel)%nat)
      by (destruct fuel; [discriminate Hrun' | lia]).
    set (c1 := atTimeOf (stepDay dec c) (if dec then stop else start)) in *.
    assert (Hsame1 : Spec.sameDay c1 (stepDay dec c))
      by apply sameDay_atTimeOf.
    assert (Hiter : forall n, Spec.sameDay (Nat.iter n (stepDay dec) c1)
                                (Nat.iter (S n) (stepDay dec) c)).
    { intros n. rewrite Nat.iter_succ_r. induction n as [|n IHn];
        [exact Hsame1|]. cbn [Nat.iter nat_rect]. now apply stepDay_sameDay. }
    destruct (IH _ Hrun') as (Hfree & [[H1 ->] | (H1 & n & Hn & Hs & Ht & Hb)]).
    + split; [exact Hfree|]. right. split; [reflexivity|].
      exists 1%nat. split; [lia|]. split; [exact Hsame1|].
      split; [reflexivity|].
      intros j Hj. assert (j = 0%nat) as -> by lia. exact Hc.
    + split; [exact Hfree|]. right. split; [reflexivity|].
      exists (S n). split; [lia|].
      split; [exact (sameDay_trans _ _ _ Hs (Hiter n))|].
      split; [exact Ht|].
      intros [|j] Hj; [exact Hc|].
      rewrite <- (isHoliday_sameDay cal _ _ (Hiter j)). apply Hb. lia.
  - injection Hrun as <-. split; [exact Hc|]. left. auto.
Qed.

Lemma repeatM_invariant {A} (P : A -> Prop) (f : A -> outcome A) n x y :
  (forall a b, f a = Ret b -> P b) -> P x ->
  repeatM n f x = Ret y -> P y.
Proof.
  intros Hf. revert x. induction n as [|n IH]; intros x Hx Hrun.
  - injection Hrun as <-. exact Hx.
  - cbn [repeatM] in Hrun. destruct (f x) as [x1| |] eqn:E;
      cbn [mbind outcome_bind] in Hrun; try discriminate.
    exact (IH x1 (Hf _ _ E) Hrun).
Qed.

Lemma incrementWorkDay_free fuel w c dec c' :
  incrementWorkDay fuel w c dec = Ret c' ->
  Gregorian.isHoliday (calendar_ w) c' = Ret false.
Proof.
  unfold incrementWorkDay. intros H.
  destruct (skipHolidays_lands _ _ _ _ _ H) as (n & _ & _ & Hfree & _).
  exact Hfree.
Qed.

Lemma isHoliday_setDate cal c hours mins :
  Gregorian.isHoliday cal
    (setDate c (getYear c) (getMonth c) (getDay c) hours mins)
  = Gregorian.isHoliday cal c.
Proof. apply isHoliday_date_only; reflexivity. Qed.

Lemma addRemainingMinutes_free fuel w start stop minutes c r :
  Gregorian.isHoliday (calendar_ w) c = Ret false ->
  addRemainingMinutes fuel w start stop minutes c = Ret r ->
  Gregorian.isHoliday (calendar_ w) r = Ret false.
Proof.
  intros Hc. unfold addRemainingMinutes.
  set (first := if _ <=? _ then _ else _).
  assert (Hfirst : forall c1, first = Ret c1 ->
            Gregorian.isHoliday (calendar_ w) c1 = Ret false).
  { subst first. intros c1. destruct (_ <=? _).
    - destruct (incrementWorkDay fuel w c false) as [c0| |] eqn:E;
        cbn [mbind outcome_bind]; try discriminate.
      intros [= <-]. unfold atTimeOf. rewrite isHoliday_setDate.
      exact (incrementWorkDay_free _ _ _ _ _ E).
    - destruct (_ <? _); intros [= <-]; [|exact Hc].
      unfold atTimeOf. now rewrite isHoliday_setDate. }
  destruct first as [c1| |]; cbn [mbind outcome_bind]; try discriminate.
  specialize (Hfirst c1 eq_refl).
  destruct (_ <=? _).
  - destruct (addMinutes _ _). intros [= <-]. now rewrite isHoliday_setDate.
  - destruct (incrementWorkDay fuel w c1 false) as [c2| |] eqn:E;
      cbn [mbind outcome_bind]; try discriminate.
    destruct (addMinutes _ _). intros [= <-]. rewrite isHoliday_setDate.
    exact (incrementWorkDay_free _ _ _ _ _ E).
Qed.

Lemma removeRemainingMinutes_free fuel w start stop minutes c r :
  Gregorian.isHoliday (calendar_ w) c = Ret false ->
  removeRemainingMinutes fuel w start stop minutes c = Ret r ->
  Gregorian.isHoliday (calendar_ w) r = Ret false.
Proof.
  intros Hc. unfold removeRemainingMinutes.
  set (first := if _ <=? _ then _ else _).
  assert (Hfirst : forall c1, first = Ret c1 ->
            Gregorian.isHoliday (calendar_ w) c1 = Ret false).
  { subst first. intros c1. destruct (_ <=? _).
    - intros [= <-]. unfold atTimeOf. now rewrite isHoliday_setDate.
    - destruct (_ <? _); [|intros [= <-]; exact Hc].
      destruct (incrementWorkDay fuel w c true) as [c0| |] eqn:E;
        cbn [mbind outcome_bind]; try discriminate.
      intros [= <-]. unfold atTimeOf. rewrite isHoliday_setDate.
      exact (incrementWorkDay_free _ _ _ _ _ E). }
  destruct first as [c1| |]; cbn [mbind outcome_bind]; try discriminate.
  specialize (Hfirst c1 eq_refl).
  destruct (_ <=? _).
  - destruct (subtractMinutes _ _). intros [= <-].
    now rewrite isHoliday_setDate.
  - destruct (incrementWorkDay fuel w c1 true) as [c2| |] eqn:E;
      cbn [mbind outcome_bind]; try discriminate.
    destruct (subtractMinutes _ _). intros [= <-]. rewrite isHoliday_setDate.
    exact (incrementWorkDay_free _ _ _ _ _ E).
Qed.

End LandingFacts.

(** X5. When [incrementWorkDay] returns, it has moved by at least one
    calendar day in the direction of travel, every day passed on the way
    is a holiday, the day reached is not, and the time of day is the one
    it started with. *)
Theorem incrementWorkDay_first_workday
  (fuel : nat) (w : WorkdayCalendar) (c c' : Date) (dec : bool) :
  Workday.incrementWorkDay fuel w c dec = Ret c' ->
  exists n, (1 <= n <= fuel)%nat /\
    c' = Nat.iter n (Workday.stepDay dec) c /\
    Workday.isHoliday w c' = Ret false /\
    (forall j, (1 <= j < n)%nat ->
       Workday.isHoliday w (Nat.iter j (Workday.stepDay dec) c) = Ret true) /\
    hour_ c' = hour_ c /\ minute_ c' = minute_ c.
Proof.
  unfold Workday.incrementWorkDay, Workday.isHoliday. intros H.
  destruct (skipHolidays_lands _ _ _ _ _ H) as (n & Hn & -> & Hfree & Hbefore).
  exists (S n). split; [lia|]. rewrite Nat.iter_succ_r.
  split; [reflexivity|]. split; [exact Hfree|]. split.
  - intros [|j] Hj; [lia|]. rewrite Nat.iter_succ_r. apply Hbefore. lia.
  - rewrite <- Nat.iter_succ_r. apply iter_stepDay_time.
Qed.

Lemma incrementWorkDay_first_workday_witness :
  exists n, (1 <= n <= 4)%nat /\
    mkDate 2024 5 13 9 0 =
      Nat.iter n (Workday.stepDay false) (mkDate 2024 5 10 9 0).
Proof.
  destruct (incrementWorkDay_first_workday 4 Examples.eightToFour
              (mkDate 2024 5 10 9 0) (mkDate 2024 5 13 9 0) false)
    as (n & Hn & Hc & _); [vm_compute; reflexivity|].
  exists n. split; assumption.
Defined.

(** X6. A date returned by [getWorkdayIncrement] for a valid start date
    in a configured engine is never a weekend day or a registered
    holiday. *)
Theorem getWorkdayIncrement_never_a_holiday
  (fuel : nat) (w : WorkdayCalendar) (d r : Date) (amount : spec_float) :
  Gregorian.isValidDate d = true ->
  workday_start_ w <> None ->
  workday_stop_ w <> None ->
  workday_duration_ w <> None ->
  Workday.getWorkdayIncrement fuel w d amount = Ret r ->
  Workday.isHoliday w r = Ret false.
Proof.
  unfold Workday.getWorkdayIncrement, Workday.isHoliday.
  intros Hv Hs He Hd. rewrite Hv. cbn [negb].
  destruct (workday_start_ w) as [start|]; [|contradiction].
  destruct (workday_stop_ w) as [stop|]; [|contradiction].
  destruct (workday_duration_ w) as [dur|]; [|contradiction].
  destruct (Float32.static_cast_long _) as [mins| |];
    cbn [mbind outcome_bind]; try discriminate.
  destruct (Workday.long_div _ _) as [wd| |];
    cbn [mbind outcome_bind]; try discriminate.
  destruct (Workday.moveToFirstWorkday _ _ _ _ _ _) as [c0| |] eqn:E0;
    cbn [mbind outcome_bind]; try discriminate.
  apply moveToFirstWorkday_lands in E0 as [H0 _].
  destruct (repeatM _ _ c0) as [c1| |] eqn:E1;
    cbn [mbind outcome_bind]; try discriminate.
  assert (H1 : Gregorian.isHoliday (calendar_ w) c1 = Ret false).
  { refine (repeatM_invariant
              (fun x => Gregorian.isHoliday (calendar_ w) x = Ret false)
              _ _ _ _ _ H0 E1).
    intros a b Hab. unfold Workday.incrementWorkWeek in Hab.
    change (Z.to_nat Workday.WORKWEEK_DURATION) with 5%nat in Hab.
    cbn [repeatM] in Hab.
    repeat (destruct (Workday.incrementWorkDay fuel w _ _) as [?c| |] eqn:?E
            in Hab; cbn [mbind outcome_bind] in Hab; try discriminate).
    injection Hab as <-. eapply incrementWorkDay_free. eassumption. }
  destruct (repeatM _ _ c1) as [c2| |] eqn:E2;
    cbn [mbind outcome_bind]; try discriminate.
  assert (H2 : Gregorian.isHoliday (calendar_ w) c2 = Ret false).
  { refine (repeatM_invariant
              (fun x => Gregorian.isHoliday (calendar_ w) x = Ret false)
              _ _ _ _ _ H1 E2).
    intros a b Hab. eapply incrementWorkDay_free. exact Hab. }
  destruct (Workday.long_rem _ _) as [rm| |];
    cbn [mbind outcome_bind]; try discriminate.
  destruct (Float32.ltb _ _).
  - now apply removeRemainingMinutes_free.
  - now apply addRemainingMinutes_free.
Qed.

Lemma getWorkdayIncrement_never_a_holiday_witness :
  Workday.isHoliday Examples.eightToFour (mkDate 2024 5 14 8 0) = Ret false.
Proof.
  apply (getWorkdayIncrement_never_a_holiday 5 Examples.eightToFour
           (mkDate 2024 5 11 9 0) (mkDate 2024 5 14 8 0) Examples.f_1).
  - reflexivity.
  - discriminate.
  - discriminate.
  - discriminate.
  - vm_compute. reflexivity.
Defined.



(** ** The weekly rhythm *)

Section WeekFacts.

Import Gregorian Workday.

Lemma isHoliday_unregistered cal d v :
  holidays_ cal = ∅ -> recurring_holidays_ cal = ∅ ->
  dayOfWeek d = Ret v ->
  Gregorian.isHoliday cal d = Ret ((v =? 0) || (v =? 6)).
Proof.
  intros Hh Hr Hv. rewrite (isHoliday_cases cal d v Hv), Hh, Hr.
  rewrite !bool_decide_eq_false_2 by apply not_elem_of_empty.
  now rewrite !orb_false_r.
Qed.

End WeekFacts.

(** X8. [dayOfWeek] agrees with the calendar: for a valid date up to
    the year 1_700_000_000 it is the number of days since Saturday,
    January 1 of year 0, taken modulo 7 with 0 for Sunday.  The only
    exception is January and February of year 0, where the formula
    divides the year -1 with truncation and answers one day late. *)
Theorem dayOfWeek_matches_calendar (d : Date) :
  Gregorian.isValidDate d = true ->
  year_ d <= 1700000000 ->
  dayOfWeek d =
    Ret ((Spec.dayNumber d
          + (if (year_ d =? 0) && (month_ d <? 3) then 0 else 6)) mod 7).
Proof. apply dayOfWeek_dayNumber. Qed.

Lemma dayOfWeek_matches_calendar_witness :
  dayOfWeek (mkDate 2004 1 1 15 7) =
    Ret ((Spec.dayNumber (mkDate 2004 1 1 15 7) + 6) mod 7).
Proof.
  apply (dayOfWeek_matches_calendar (mkDate 2004 1 1 15 7)).
  - reflexivity.
  - cbn. lia.
Defined.

(** X9. On valid dates from year 1 on (below the year 1_700_000_000),
    [dayOfWeek] is between 0 and 6, [addDay] moves it one weekday forward
    and [removeDay] one weekday back, both modulo 7. *)
Theorem dayOfWeek_follows_the_days (d : Date) :
  Gregorian.isValidDate d = true ->
  1 <= year_ d < 1700000000 ->
  exists v,
    dayOfWeek d = Ret v /\ 0 <= v <= 6 /\
    dayOfWeek (Gregorian.addDay d) = Ret ((v + 1) mod 7) /\
    dayOfWeek (Gregorian.removeDay d) = Ret ((v + 6) mod 7).
Proof.
  intros Hv Hy.
  destruct (dayOfWeek_stepDay false d Hv Hy) as (v & Hd & Hb & Hadd).
  destruct (dayOfWeek_stepDay true d Hv Hy) as (v' & Hd' & _ & Hrem).
  assert (v' = v) as -> by congruence.
  exists v. auto.
Qed.

Lemma dayOfWeek_follows_the_days_witness :
  exists v,
    dayOfWeek (mkDate 2024 2 29 9 0) = Ret v /\ 0 <= v <= 6 /\
    dayOfWeek (Gregorian.addDay (mkDate 2024 2 29 9 0)) = Ret ((v + 1) mod 7) /\
    dayOfWeek (Gregorian.removeDay (mkDate 2024 2 29 9 0)) = Ret ((v + 6) mod 7).
Proof.
  apply (dayOfWeek_follows_the_days (mkDate 2024 2 29 9 0)).
  - reflexivity.
  - cbn. lia.
Defined.

(** X10. [addDay] and [removeDay] keep a valid date valid: [addDay]
    whenever the year is below the largest [int], [removeDay] on every
    valid date but January 1 of year 0, from which it steps to the year
    -1 that [isValidDate] rejects. *)
Theorem addDay_removeDay_keep_validity (d : Date) :
  Gregorian.isValidDate d = true ->
  in_int (year_ d) ->
  (year_ d < int_max -> Gregorian.isValidDate (Gregorian.addDay d) = true) /\
  (Gregorian.isValidDate (Gregorian.removeDay d) = true <->
   ~ (year_ d = 0 /\ month_ d = 1 /\ day_ d = 1)).
Proof.
  intros Hv Hy. split.
  - intros Hlt. now apply addDay_valid.
  - split.
    + intros Hr (Hy0 & Hm & Hd). destruct d as [y m dd h mi].
      cbn [year_ month_ day_] in *. subst. vm_compute in Hr. discriminate.
    + intros Hfirst. now apply removeDay_valid.
Qed.

Lemma addDay_removeDay_keep_validity_witness :
  Gregorian.isValidDate (Gregorian.addDay (mkDate 2024 12 31 9 0)) = true /\
  Gregorian.isValidDate (Gregorian.removeDay (mkDate 0 1 1 9 0)) <> true.
Proof.
  assert (Hi : forall y, 0 <= y <= 2024 -> in_int y)
    by (unfold in_int, int_min, int_max; lia).
  split.
  - apply (addDay_removeDay_keep_validity (mkDate 2024 12 31 9 0) eq_refl).
    + apply Hi. cbn. lia.
    + unfold int_max. cbn. lia.
  - intros H.
    apply (addDay_removeDay_keep_validity (mkDate 0 1 1 9 0) eq_refl) in H.
    + apply H. repeat split.
    + apply Hi. cbn. lia.
Defined.

(** X11. With no holiday registered, [incrementWorkDay] from a valid
    date (years 3 to 1_699_999_997) returns after at most three tests:
    it moves one to three calendar days and lands on a day from Monday
    to Friday. *)
Theorem incrementWorkDay_weekends_only
  (w : WorkdayCalendar) (d : Date) (dec : bool) (fuel : nat) :
  holidays_ (calendar_ w) = ∅ ->
  recurring_holidays_ (calendar_ w) = ∅ ->
  Gregorian.isValidDate d = true ->
  3 <= year_ d <= 1699999997 ->
  (3 <= fuel)%nat ->
  exists c' n v,
    Workday.incrementWorkDay fuel w d dec = Ret c' /\
    (1 <= n <= 3)%nat /\
    c' = Nat.iter n (Workday.stepDay dec) d /\
    dayOfWeek c' = Ret v /\ 1 <= v <= 5.
Proof.
  intros Hh Hr Hv Hy Hfuel.
  destruct fuel as [|[|[|fuel]]]; try lia.
  unfold Workday.incrementWorkDay.
  assert (Hint : forall y, 0 <= y <= 1700000000 -> y < int_max)
    by (unfold int_max; lia).
  (* the next two days are valid *)
  destruct (stepDay_valid dec d Hv) as [Hv1 Hy1]; [split; [lia|apply Hint; lia]|].
  destruct (stepDay_valid dec _ Hv1) as [Hv2 Hy2]; [split; [lia|apply Hint; lia]|].
  destruct (dayOfWeek_stepDay dec _ Hv1) as (v1 & Hd1 & Hb1 & Hd2); [lia|].
  destruct (dayOfWeek_stepDay dec _ Hv2) as (v2 & Hd2' & Hb2 & Hd3); [lia|].
  rewrite Hd2 in Hd2'. injection Hd2' as Hv2eq.
  set (k := if dec then 6 else 1) in *.
  assert (Hk : k = 6 \/ k = 1) by (subst k; destruct dec; auto).
  pose proof (isHoliday_unregistered _ _ _ Hh Hr Hd1) as H1.
  pose proof (isHoliday_unregistered _ _ _ Hh Hr Hd2) as H2.
  pose proof (isHoliday_unregistered _ _ _ Hh Hr Hd3) as H3.
  cbn [Workday.skipHolidays]. rewrite H1.
  destruct ((v1 =? 0) || (v1 =? 6)) eqn:W1; cbn [mbind outcome_bind].
  - rewrite H2.
    destruct (((v1 + k) mod 7 =? 0) || ((v1 + k) mod 7 =? 6)) eqn:W2;
      cbn [mbind outcome_bind].
    + rewrite H3. rewrite <- Hv2eq.
      destruct ((((v1 + k) mod 7 + k) mod 7 =? 0)
                || (((v1 + k) mod 7 + k) mod 7 =? 6)) eqn:W3;
        cbn [mbind outcome_bind].
      * exfalso. rewrite orb_true_iff, !Z.eqb_eq in W1, W2, W3.
        Z.to_euclidean_division_equations; lia.
      * exists (Workday.stepDay dec (Workday.stepDay dec (Workday.stepDay dec d))), 3%nat, (((v1 + k) mod 7 + k) mod 7).
        split; [reflexivity|]. split; [lia|]. split; [reflexivity|].
        split; [now rewrite Hd3, <- Hv2eq|].
        rewrite orb_false_iff, !Z.eqb_neq in W3.
        Z.to_euclidean_division_equations; lia.
    + exists (Workday.stepDay dec (Workday.stepDay dec d)), 2%nat, ((v1 + k) mod 7).
      split; [reflexivity|]. split; [lia|]. split; [reflexivity|].
      split; [exact Hd2|].
      rewrite orb_false_iff, !Z.eqb_neq in W2.
      Z.to_euclidean_division_equations; lia.
  - exists (Workday.stepDay dec d), 1%nat, v1.
    split; [reflexivity|]. split; [lia|]. split; [reflexivity|].
    split; [exact Hd1|].
    rewrite orb_false_iff, !Z.eqb_neq in W1. lia.
Qed.

Lemma incrementWorkDay_weekends_only_witness :
  exists c' n v,
    Workday.incrementWorkDay 3 Examples.eightToFour
      (mkDate 2024 5 10 9 0) false = Ret c' /\
    (1 <= n <= 3)%nat /\
    c' = Nat.iter n (Workday.stepDay false) (mkDate 2024 5 10 9 0) /\
    dayOfWeek c' = Ret v /\ 1 <= v <= 5.
Proof.
  apply (incrementWorkDay_weekends_only Examples.eightToFour
           (mkDate 2024 5 10 9 0) false 3).
  - reflexivity.
  - reflexivity.
  - reflexivity.
  - cbn. lia.
  - lia.
Defined.

(** ** The minute count of an increment *)

Section FloatFacts.

Lemma binary_round_aux_sign s m e l :
  match binary_round_aux Float32.prec Float32.emax s m e l with
  | S754_zero s' | S754_infinity s' | S754_finite s' _ _ => s' = s
  | S754_nan => True
  end.
Proof.
  unfold binary_round_aux.
  destruct (shr_fexp _ _ m e l) as [mrs' e'].
  destruct (shr_fexp _ _ _ e' loc_Exact) as [mrs'' e''].
  destruct (shr_m mrs''); [reflexivity| |exact I].
  destruct (Z.leb _ _); reflexivity.
Qed.

Lemma of_long_positive_sign z :
  0 < z ->
  match Float32.of_long z with
  | S754_zero s' | S754_infinity s' | S754_finite s' _ _ => s' = false
  | S754_nan => True
  end.
Proof.
  intros Hz. unfold Float32.of_long, Float32.of_Z_pow2, binary_normalize.
  destruct z as [|p|p]; try lia.
  unfold binary_round. destruct (shl_align _ _ _) as [mz ez].
  apply binary_round_aux_sign.
Qed.

Lemma static_cast_long_nonneg x v :
  match x with
  | S754_zero _ => True
  | S754_infinity s' | S754_finite s' _ _ => s' = false
  | S754_nan => True
  end ->
  Float32.static_cast_long x = Ret v -> 0 <= v.
Proof.
  unfold Float32.static_cast_long.
  destruct x as [s|s| |s m e]; intros Hs; try discriminate.
  - intros [= <-]. lia.
  - subst s. destruct (_ && _); [|discriminate]. intros [= <-].
    cbn [cond_Zopp]. apply Z.shiftl_nonneg. lia.
Qed.

(** After the sign is taken off, the product with a positive workday
    length converts to a minute count that is not negative. *)
Lemma increment_minutes_nonneg amount z minutes :
  0 < z ->
  Float32.static_cast_long
    (Float32.mul
       (if Float32.ltb amount (Float32.of_long 0)
        then Float32.neg amount else amount)
       (Float32.of_long z)) = Ret minutes ->
  0 <= minutes.
Proof.
  intros Hz. apply static_cast_long_nonneg.
  pose proof (of_long_positive_sign z Hz) as Hy.
  change (Float32.of_long 0) with (S754_zero false).
  unfold Float32.mul, Float32.ltb, Float32.neg.
  destruct amount as [s|s| |s m e];
    destruct (Float32.of_long z) as [sy|sy| |sy my ey];
    try subst sy; try exact I;
    try (destruct s; exact I || reflexivity).
  destruct s; cbn [SFltb SFcompare SFopp SFmul xorb negb];
    match goal with
    | |- context [binary_round_aux ?p ?q ?s ?a ?b ?c] =>
        pose proof (binary_round_aux_sign s a b c) as Hr;
        destruct (binary_round_aux p q s a b c)
    end; auto.
Qed.

End FloatFacts.

(** ** The result lies inside working hours *)

Section WindowFacts.

Import Gregorian Workday.

Lemma clock_of_minutes total :
  0 <= total < 1440 ->
  0 <= Z.quot total MINUTES_IN_HOUR < 24 /\
  0 <= Z.rem total MINUTES_IN_HOUR < 60 /\
  Z.quot total MINUTES_IN_HOUR * 60 + Z.rem total MINUTES_IN_HOUR = total.
Proof.
  unfold MINUTES_IN_HOUR. intros H.
  Z.to_euclidean_division_equations; lia.
Qed.

Local Abbreviation clock d := (hour_ d * 60 + minute_ d).

Lemma addRemainingMinutes_window fuel w start stop minutes c r :
  isValidDate start = true -> isValidDate stop = true ->
  clock start < clock stop ->
  0 <= minutes < clock stop - clock start ->
  addRemainingMinutes fuel w start stop minutes c = Ret r ->
  clock start <= clock r <= clock stop /\
  0 <= hour_ r < 24 /\ 0 <= minute_ r < 60.
Proof.
  intros Hvs Hve Hlt Hmin.
  destruct (convertToMinutes_valid _ Hvs) as [Es Bs].
  destruct (convertToMinutes_valid _ Hve) as [Ee Be].
  unfold addRemainingMinutes. rewrite Es, Ee.
  set (first := if _ <=? _ then _ else _).
  assert (Hfirst : forall c1, first = Ret c1 ->
            clock start <= convertToMinutes (getTime c1) < clock stop).
  { subst first. intros c1.
    destruct (Z.leb_spec (clock stop) (convertToMinutes (getTime c))).
    - destruct (incrementWorkDay fuel w c false) as [c0| |];
        cbn [mbind outcome_bind]; try discriminate.
      intros [= <-]. change (getTime (atTimeOf c0 start)) with (getTime start).
      rewrite Es. lia.
    - destruct (Z.ltb_spec (convertToMinutes (getTime c)) (clock start));
        intros [= <-]; [|lia].
      change (getTime (atTimeOf c start)) with (getTime start).
      rewrite Es. lia. }
  destruct first as [c1| |]; cbn [mbind outcome_bind]; try discriminate.
  specialize (Hfirst c1 eq_refl).
  set (cm := convertToMinutes (getTime c1)) in *.
  rewrite (int_add_small cm minutes)
    by (unfold in_int, int_min, int_max; lia).
  destruct (Z.leb_spec (cm + minutes) (clock stop)).
  - unfold addMinutes. rewrite int_add_small
      by (unfold in_int, int_min, int_max; lia).
    intros [= <-]. unfold setDate. cbn [hour_ minute_].
    pose proof (clock_of_minutes (cm + minutes) ltac:(lia)). lia.
  - destruct (incrementWorkDay fuel w c1 false) as [c2| |];
      cbn [mbind outcome_bind]; try discriminate.
    unfold addMinutes.
    rewrite (int_sub_small (cm + minutes))
      by (unfold in_int, int_min, int_max; lia).
    rewrite int_add_small by (unfold in_int, int_min, int_max; lia).
    intros [= <-]. unfold setDate. cbn [hour_ minute_].
    pose proof (clock_of_minutes
                  (clock start + (cm + minutes - clock stop)) ltac:(lia)).
    lia.
Qed.

Lemma removeRemainingMinutes_window fuel w start stop minutes c r :
  isValidDate start = true -> isValidDate stop = true ->
  clock start < clock stop ->
  0 <= minutes < clock stop - clock start ->
  removeRemainingMinutes fuel w start stop minutes c = Ret r ->
  clock start <= clock r <= clock stop /\
  0 <= hour_ r < 24 /\ 0 <= minute_ r < 60.
Proof.
  intros Hvs Hve Hlt Hmin.
  destruct (convertToMinutes_valid _ Hvs) as [Es Bs].
  destruct (convertToMinutes_valid _ Hve) as [Ee Be].
  unfold removeRemainingMinutes. rewrite Es, Ee.
  set (first := if _ <=? _ then _ else _).
  assert (Hfirst : forall c1, first = Ret c1 ->
            clock start <= convertToMinutes (getTime c1) <= clock stop).
  { subst first. intros c1.
    destruct (Z.leb_spec (clock stop) (convertToMinutes (getTime c))).
    - intros [= <-]. change (getTime (atTimeOf c stop)) with (getTime stop).
      rewrite Ee. lia.
    - destruct (Z.ltb_spec (convertToMinutes (getTime c)) (clock start));
        [|intros [= <-]; lia].
      destruct (incrementWorkDay fuel w c true) as [c0| |];
        cbn [mbind outcome_bind]; try discriminate.
      intros [= <-]. change (getTime (atTimeOf c0 stop)) with (getTime stop).
      rewrite Ee. lia. }
  destruct first as [c1| |]; cbn [mbind outcome_bind]; try discriminate.
  specialize (Hfirst c1 eq_refl).
  set (cm := convertToMinutes (getTime c1)) in *.
  rewrite !(int_sub_small cm minutes)
    by (unfold in_int, int_min, int_max; lia).
  destruct (Z.leb_spec (clock start) (cm - minutes)).
  - unfold subtractMinutes, MINUTES_IN_DAY. rewrite int_sub_small
      by (unfold in_int, int_min, int_max; lia).
    destruct (Z.ltb_spec (cm - minutes) 0); [lia|].
    intros [= <-]. unfold setDate. cbn [hour_ minute_].
    pose proof (clock_of_minutes (cm - minutes) ltac:(lia)). lia.
  - destruct (incrementWorkDay fuel w c1 true) as [c2| |];
      cbn [mbind outcome_bind]; try discriminate.
    unfold subtractMinutes, MINUTES_IN_DAY.
    rewrite (int_sub_small (clock start))
      by (unfold in_int, int_min, int_max; lia).
    rewrite int_sub_small by (unfold in_int, int_min, int_max; lia).
    destruct (Z.ltb_spec (clock stop - (clock start - (cm - minutes))) 0);
      [lia|].
    intros [= <-]. unfold setDate. cbn [hour_ minute_].
    pose proof (clock_of_minutes
                  (clock stop - (clock start - (cm - minutes))) ltac:(lia)).
    lia.
Qed.

End WindowFacts.

(** X12. In an engine whose start time is before its stop time, every
    date that [getWorkdayIncrement] returns for a valid start date has a
    valid clock time between the start and the stop time of the workday,
    both included. *)
Theorem getWorkdayIncrement_inside_hours
  (fuel : nat) (w : WorkdayCalendar) (start stop d r : Date)
  (amount : spec_float) :
  reachable w ->
  Workday.getWorkdayStart w = Some start ->
  Workday.getWorkdayStop w = Some stop ->
  hour_ start * 60 + minute_ start < hour_ stop * 60 + minute_ stop ->
  Gregorian.isValidDate d = true ->
  Workday.getWorkdayIncrement fuel w d amount = Ret r ->
  hour_ start * 60 + minute_ start <= hour_ r * 60 + minute_ r /\
  hour_ r * 60 + minute_ r <= hour_ stop * 60 + minute_ stop /\
  0 <= hour_ r < 24 /\ 0 <= minute_ r < 60.
Proof.
  unfold Workday.getWorkdayStart, Workday.getWorkdayStop.
  intros Hreach Hstart Hstop Hlt Hvalid.
  pose proof (reachable_configuration w Hreach) as Hcfg.
  rewrite Hstart, Hstop in Hcfg. destruct Hcfg as (Hvs & Hve & Hdur).
  destruct (convertToMinutes_valid _ Hvs) as [Es Bs].
  destruct (convertToMinutes_valid _ Hve) as [Ee Be].
  pose proof (updateWorkingDuration_minutes start stop Hvs Hve) as Ewd.
  rewrite Z.mod_small in Ewd by lia.
  unfold Workday.getWorkdayIncrement.
  rewrite Hvalid, Hstart, Hstop, Hdur. cbn [negb].
  set (wmin := convertToMinutes
                 (getTime (Workday.updateWorkingDuration start stop))) in *.
  destruct (Float32.static_cast_long _) as [mins| |] eqn:Ecast;
    cbn [mbind outcome_bind]; try discriminate.
  apply increment_minutes_nonneg in Ecast; [|lia].
  unfold Workday.long_div, Workday.long_rem.
  destruct (Z.eqb_spec wmin 0) as [E0|_]; [lia|].
  cbn [mbind outcome_bind].
  destruct (Workday.moveToFirstWorkday _ _ _ _ _ _) as [c0| |];
    cbn [mbind outcome_bind]; try discriminate.
  destruct (repeatM _ _ c0) as [c1| |];
    cbn [mbind outcome_bind]; try discriminate.
  destruct (repeatM _ _ c1) as [c2| |];
    cbn [mbind outcome_bind]; try discriminate.
  assert (Hrem : 0 <= Z.rem mins wmin < wmin)
    by (Z.to_euclidean_division_equations; nia).
  destruct (Float32.ltb _ _); intros Hrun.
  - apply removeRemainingMinutes_window in Hrun; auto; lia.
  - apply addRemainingMinutes_window in Hrun; auto; lia.
Qed.

Lemma getWorkdayIncrement_inside_hours_witness :
  8 * 60 + 0 <= 9 * 60 + 7 /\ 9 * 60 + 7 <= 16 * 60 + 0 /\
  0 <= 9 < 24 /\ 0 <= 7 < 60.
Proof.
  apply (getWorkdayIncrement_inside_hours 3 Examples.eightToFour
           Examples.startWorkday Examples.stopWorkday
           (mkDate 2004 1 1 15 7) (mkDate 2004 1 2 9 7) Examples.f_0_25).
  - apply reach_setWorkdayStartAndStop, reach_new.
  - reflexivity.
  - reflexivity.
  - cbn. lia.
  - reflexivity.
  - vm_compute. reflexivity.
Defined.

(** ** Clock arithmetic *)

(** X13. For two clock times of a day, [subtractTime] (and
    [subtractMinutes] on their minute counts) gives a clock time again:
    the difference modulo 24 hours.  It is 00:00 exactly when the two
    times are equal, which is the case in which the workday duration is
    zero. *)
Theorem subtractTime_is_a_clock_time (lh lm sh sm : Z) :
  0 <= lh < 24 -> 0 <= lm < 60 -> 0 <= sh < 24 -> 0 <= sm < 60 ->
  let r := subtractTime (lh, lm) (sh, sm) in
  r = subtractMinutes (lh * 60 + lm) (sh * 60 + sm) /\
  0 <= fst r < 24 /\ 0 <= snd r < 60 /\
  fst r * 60 + snd r = ((lh * 60 + lm) - (sh * 60 + sm)) mod 1440 /\
  (r = (0, 0) <-> (lh, lm) = (sh, sm)).
Proof.
  intros Hlh Hlm Hsh Hsm. cbv zeta.
  unfold subtractTime, subtractMinutes, convertToMinutes, MINUTES_IN_DAY,
    MINUTES_IN_HOUR, HOURS_IN_DAY.
  change (60 * 24) with 1440. unwrap.
  set (a := lh * 60 + lm) in *. set (b := sh * 60 + sm) in *.
  assert (Ha : 0 <= a < 1440) by (subst a; lia).
  assert (Hb : 0 <= b < 1440) by (subst b; lia).
  split; [reflexivity|].
  destruct (Z.ltb_spec (a - b) 0); unwrap; cbn [fst snd].
  - repeat split; try (Z.to_euclidean_division_equations; lia).
    + intros [= Hq Hr]. exfalso. Z.to_euclidean_division_equations; lia.
    + intros [= -> ->]. lia.
  - repeat split; try (Z.to_euclidean_division_equations; lia).
    + intros [= Hq Hr].
      assert (a = b) by (Z.to_euclidean_division_equations; lia).
      subst a b. f_equal; lia.
    + intros [= -> ->]. subst a b. rewrite Z.sub_diag. reflexivity.
Qed.

Lemma subtractTime_is_a_clock_time_witness :
  fst (subtractTime (8, 0) (16, 0)) * 60 + snd (subtractTime (8, 0) (16, 0))
  = ((8 * 60 + 0) - (16 * 60 + 0)) mod 1440.
Proof.
  destruct (subtractTime_is_a_clock_time 8 0 16 0) as (_ & _ & _ & H & _);
    [lia | lia | lia | lia | exact H].
Defined.

(** X14. [addTime] undoes [subtractTime] on clock times, except that it
    never wraps: when the subtracted time is the later one, adding it
    back gives the first time with 24 hours more. *)
Theorem addTime_after_subtractTime (lh lm sh sm : Z) :
  0 <= lh < 24 -> 0 <= lm < 60 -> 0 <= sh < 24 -> 0 <= sm < 60 ->
  addTime (subtractTime (lh, lm) (sh, sm)) (sh, sm) =
    if sh * 60 + sm <=? lh * 60 + lm then (lh, lm) else (lh + 24, lm).
Proof.
  intros Hlh Hlm Hsh Hsm.
  destruct (subtractTime_is_a_clock_time lh lm sh sm Hlh Hlm Hsh Hsm)
    as (_ & Hf & Hs & Hsum & _).
  destruct (subtractTime (lh, lm) (sh, sm)) as [dh dm]. cbn [fst snd] in *.
  unfold addTime, convertToMinutes, MINUTES_IN_HOUR. unwrap_any.
  destruct (Z.leb_spec (sh * 60 + sm) (lh * 60 + lm)).
  - rewrite Z.mod_small in Hsum by lia.
    f_equal; Z.to_euclidean_division_equations; lia.
  - assert (Hs' : dh * 60 + dm = lh * 60 + lm - (sh * 60 + sm) + 1440)
      by (Z.to_euclidean_division_equations; lia).
    f_equal; Z.to_euclidean_division_equations; lia.
Qed.

Lemma addTime_after_subtractTime_witness :
  addTime (subtractTime (8, 0) (16, 0)) (16, 0) = (8 + 24, 0).
Proof.
  apply (addTime_after_subtractTime 8 0 16 0); lia.
Defined.

(** X15. Minute counts and (hour, minute) pairs convert back and forth
    without loss: splitting a count that is not negative with
    [addMinutes n 0] and recombining it with [convertToMinutes] gives the
    count, and the other way round for a pair with minute in 0..59. *)
Theorem convertToMinutes_addMinutes_round_trip (n h m : Z) :
  0 <= n <= int_max ->
  0 <= h <= 35791393 -> 0 <= m < 60 ->
  convertToMinutes (addMinutes n 0) = n /\
  addMinutes (convertToMinutes (h, m)) 0 = (h, m).
Proof.
  unfold int_max. intros Hn Hh Hm.
  unfold addMinutes, convertToMinutes, MINUTES_IN_HOUR. split.
  - rewrite (int_add_small n 0) by (unfold in_int, int_min, int_max; lia).
    rewrite Z.add_0_r.
    assert (0 <= Z.quot n 60 * 60 <= n /\ 0 <= Z.rem n 60 < 60 /\
            Z.quot n 60 * 60 + Z.rem n 60 = n)
      by (Z.to_euclidean_division_equations; lia).
    unwrap_any. lia.
  - unwrap_any. rewrite Z.add_0_r.
    f_equal; Z.to_euclidean_division_equations; lia.
Qed.

Lemma convertToMinutes_addMinutes_round_trip_witness :
  convertToMinutes (addMinutes 907 0) = 907 /\
  addMinutes (convertToMinutes (15, 7)) 0 = (15, 7).
Proof.
  apply (convertToMinutes_addMinutes_round_trip 907 15 7);
    unfold int_max; lia.
Defined.

(** ** Only the clock part of start and stop matters *)

Section ClockOnlyFacts.

Import Gregorian Workday.

Lemma atTimeOf_clock c s s' :
  getTime s = getTime s' -> atTimeOf c s = atTimeOf c s'.
Proof.
  destruct s, s'. unfold getTime, atTimeOf, setDate, getHours, getMinutes.
  cbn. intros [= -> ->]. reflexivity.
Qed.

Lemma moveToFirstWorkday_clock fuel cal s e s' e' dec c :
  getTime s = getTime s' -> getTime e = getTime e' ->
  moveToFirstWorkday fuel cal s e dec c =
  moveToFirstWorkday fuel cal s' e' dec c.
Proof.
  intros Hs He. revert c. induction fuel as [|fuel IH]; intros c;
    [reflexivity|].
  cbn [moveToFirstWorkday].
  destruct (Gregorian.isHoliday cal c) as [[|]| |];
    cbn [mbind outcome_bind]; try reflexivity.
  rewrite (atTimeOf_clock _ e e' He), (atTimeOf_clock _ s s' Hs).
  destruct dec; apply IH.
Qed.

Lemma repeatM_ext {A} (f g : A -> outcome A) n x :
  (forall a, f a = g a) -> repeatM n f x = repeatM n g x.
Proof.
  intros Hfg. revert x. induction n as [|n IH]; intros x; [reflexivity|].
  cbn [repeatM]. rewrite Hfg. destruct (g x); cbn [mbind outcome_bind];
    auto.
Qed.

Lemma incrementWorkDay_calendar fuel w w' c dec :
  calendar_ w = calendar_ w' ->
  incrementWorkDay fuel w c dec = incrementWorkDay fuel w' c dec.
Proof. unfold incrementWorkDay. now intros ->. Qed.

Lemma incrementWorkWeek_calendar fuel w w' c dec :
  calendar_ w = calendar_ w' ->
  incrementWorkWeek fuel w c dec = incrementWorkWeek fuel w' c dec.
Proof.
  intros Hc. unfold incrementWorkWeek. apply repeatM_ext.
  intros a. now apply incrementWorkDay_calendar.
Qed.

Lemma addRemainingMinutes_clock fuel w w' s e s' e' minutes c :
  calendar_ w = calendar_ w' ->
  getTime s = getTime s' -> getTime e = getTime e' ->
  addRemainingMinutes fuel w s e minutes c =
  addRemainingMinutes fuel w' s' e' minutes c.
Proof.
  intros Hc Hs He. unfold addRemainingMinutes. rewrite Hs, He.
  rewrite (atTimeOf_clock c s s' Hs).
  rewrite (incrementWorkDay_calendar fuel w w' c false Hc).
  destruct (_ <=? _).
  - destruct (incrementWorkDay fuel w' c false) as [c0| |];
      cbn [mbind outcome_bind]; try reflexivity.
    rewrite (atTimeOf_clock _ s s' Hs).
    destruct (_ <=? _); [reflexivity|].
    now rewrite (incrementWorkDay_calendar fuel w w' _ false Hc).
  - destruct (_ <? _); cbn [mbind outcome_bind];
      (destruct (_ <=? _); [reflexivity|]);
      now rewrite (incrementWorkDay_calendar fuel w w' _ false Hc).
Qed.

Lemma removeRemainingMinutes_clock fuel w w' s e s' e' minutes c :
  calendar_ w = calendar_ w' ->
  getTime s = getTime s' -> getTime e = getTime e' ->
  removeRemainingMinutes fuel w s e minutes c =
  removeRemainingMinutes fuel w' s' e' minutes c.
Proof.
  intros Hc Hs He. unfold removeRemainingMinutes. rewrite Hs, He.
  rewrite (atTimeOf_clock c e e' He).
  rewrite (incrementWorkDay_calendar fuel w w' c true Hc).
  destruct (_ <=? _).
  - cbn [mbind outcome_bind]. destruct (_ <=? _); [reflexivity|].
    now rewrite (incrementWorkDay_calendar fuel w w' _ true Hc).
  - destruct (_ <? _).
    + destruct (incrementWorkDay fuel w' c true) as [c0| |];
        cbn [mbind outcome_bind]; try reflexivity.
      rewrite (atTimeOf_clock _ e e' He).
      destruct (_ <=? _); [reflexivity|].
      now rewrite (incrementWorkDay_calendar fuel w w' _ true Hc).
    + cbn [mbind outcome_bind]. destruct (_ <=? _); [reflexivity|].
      now rewrite (incrementWorkDay_calendar fuel w w' _ true Hc).
Qed.

End ClockOnlyFacts.

(** X16. Only the hour and minute of the configured start and stop
    count: two configurations with valid dates that agree in their clock
    times give the same [getWorkdayIncrement] for every start date and
    increment. *)
Theorem getWorkdayIncrement_clock_only
  (fuel : nat) (w : WorkdayCalendar) (s e s' e' d : Date)
  (amount : spec_float) :
  Gregorian.isValidDate s = true -> Gregorian.isValidDate e = true ->
  Gregorian.isValidDate s' = true -> Gregorian.isValidDate e' = true ->
  getTime s = getTime s' -> getTime e = getTime e' ->
  Workday.getWorkdayIncrement fuel (Workday.setWorkdayStartAndStop w s e)
    d amount =
  Workday.getWorkdayIncrement fuel (Workday.setWorkdayStartAndStop w s' e')
    d amount.
Proof.
  intros Hs He Hs' He' Hts Hte.
  unfold Workday.setWorkdayStartAndStop. rewrite Hs, He, Hs', He'.
  cbn [negb]. rewrite !mkDate_eta.
  set (w1 := mkWorkday (Some s) (Some e) _ _).
  set (w2 := mkWorkday (Some s') (Some e') _ _).
  assert (Hc : calendar_ w1 = calendar_ w2) by reflexivity.
  assert (Hd : workday_duration_ w1 = workday_duration_ w2).
  { subst w1 w2. cbn [workday_duration_].
    unfold Workday.updateWorkingDuration. now rewrite Hts, Hte. }
  assert (Hs1 : workday_start_ w1 = Some s) by reflexivity.
  assert (He1 : workday_stop_ w1 = Some e) by reflexivity.
  assert (Hs2 : workday_start_ w2 = Some s') by reflexivity.
  assert (He2 : workday_stop_ w2 = Some e') by reflexivity.
  clearbody w1 w2.
  unfold Workday.getWorkdayIncrement.
  rewrite Hs1, He1, Hs2, He2, Hd, Hc.
  destruct (Gregorian.isValidDate d); [|reflexivity]. cbn [negb].
  destruct (workday_duration_ w2) as [dur|]; [|reflexivity].
  destruct (Float32.static_cast_long _); cbn [mbind outcome_bind];
    try reflexivity.
  destruct (Workday.long_div _ _); cbn [mbind outcome_bind]; try reflexivity.
  rewrite (moveToFirstWorkday_clock _ _ s e s' e' _ _ Hts Hte).
  destruct (Workday.moveToFirstWorkday _ _ _ _ _ _);
    cbn [mbind outcome_bind]; try reflexivity.
  rewrite (repeatM_ext _ (fun x => Workday.incrementWorkWeek fuel w2 x
             (Float32.ltb amount (Float32.of_long 0))))
    by (intros; now apply incrementWorkWeek_calendar).
  destruct (repeatM _ _ _); cbn [mbind outcome_bind]; try reflexivity.
  rewrite (repeatM_ext _ (fun x => Workday.incrementWorkDay fuel w2 x
             (Float32.ltb amount (Float32.of_long 0))))
    by (intros; now apply incrementWorkDay_calendar).
  destruct (repeatM _ _ _); cbn [mbind outcome_bind]; try reflexivity.
  destruct (Workday.long_rem _ _); cbn [mbind outcome_bind]; try reflexivity.
  destruct (Float32.ltb _ _).
  - now apply removeRemainingMinutes_clock.
  - now apply addRemainingMinutes_clock.
Qed.

Lemma getWorkdayIncrement_clock_only_witness :
  Workday.getWorkdayIncrement 3
    (Workday.setWorkdayStartAndStop Workday.new
       (mkDate 2004 1 1 8 0) (mkDate 2004 1 1 16 0))
    (mkDate 2024 7 1 15 0) Examples.f_1 =
  Workday.getWorkdayIncrement 3
    (Workday.setWorkdayStartAndStop Workday.new
       (mkDate 2024 5 20 8 0) (mkDate 1999 12 31 16 0))
    (mkDate 2024 7 1 15 0) Examples.f_1.
Proof.
  apply getWorkdayIncrement_clock_only; reflexivity.
Defined.

Lemma digits_no_minus s u :
  NilEmpty.uint_of_string s = Some u ->
  forall n, String.get n s <> Some "-"%char.
Proof.
  revert u. induction s as [|a s IH]; intros u Hu n; [discriminate|].
  cbn [NilEmpty.uint_of_string] in Hu.
  destruct (NilEmpty.uint_of_string s) as [u'|] eqn:E; [|discriminate].
  destruct n as [|n]; cbn [String.get]; [|exact (IH u' eq_refl n)].
  intros [= ->]. discriminate.
Qed.

(** X17. The text form identifies a valid date: two valid dates with
    the same [getDateAndTime] text are equal, and with the same [getDate]
    text they lie on the same day.  For years up to 9999 the texts have
    the fixed widths 16 and 11, the latter counting the blank that
    [getDate] puts at its end. *)
Theorem date_text_identifies_the_date (d d' : Date) :
  Gregorian.isValidDate d = true ->
  Gregorian.isValidDate d' = true ->
  (getDate d = getDate d' -> Spec.sameDay d d') /\
  (getDateAndTime d = getDateAndTime d' -> d = d') /\
  (year_ d <= 9999 ->
     String.length (getDate d) = 11%nat /\
     String.length (getDateAndTime d) = 16%nat).
Proof.
  intros Hv Hv'.
  pose proof Hv as (Hy & Hm & Hd & Hh & Hmi)%isValidDate_true.
  pose proof Hv' as (Hy' & Hm' & Hd' & Hh' & Hmi')%isValidDate_true.
  pose proof (daysInMonth_bounds (year_ d) (month_ d)).
  pose proof (daysInMonth_bounds (year_ d') (month_ d')).
  assert (L2 : forall n, 0 <= n < 100 ->
            String.length (setw_fill0 2 (show_int n)) = 2%nat)
    by apply setw_fill0_two_digits.
  split; [now apply getDate_inj|]. split.
  - intros Heq. unfold getDateAndTime in Heq.
    assert (Hlen := f_equal String.length Heq).
    rewrite !length_append, !L2 in Hlen by lia. cbn in Hlen.
    apply append_inj_length in Heq as [Hdate Heq]; [|lia].
    apply append_inj_length in Heq as [Hhour Heq];
      [|rewrite !L2 by lia; reflexivity].
    apply (append_inj_length ":" ":") in Heq as [_ Hmin]; [|reflexivity].
    apply getDate_inj in Hdate as (Ey & Em & Ed); auto.
    apply setw_fill0_show_int_inj in Hhour; [|lia|lia].
    apply setw_fill0_show_int_inj in Hmin; [|lia|lia].
    destruct d, d'; cbn in *; congruence.
  - intros Hy4.
    assert (L4 : String.length (setw_fill0 4 (show_int (year_ d))) = 4%nat).
    { assert (Hall : List.forallb
                (fun n => Nat.eqb (String.length (setw_fill0 4 (show_int n))) 4)
                (seqZ 0 10000) = true) by (vm_compute; reflexivity).
      rewrite List.forallb_forall in Hall.
      apply Nat.eqb_eq, Hall, list_elem_of_In, elem_of_seqZ. lia. }
    assert (Lg : String.length (getDate d) = 11%nat).
    { unfold getDate. rewrite !length_append, L4, !L2 by lia. reflexivity. }
    split; [exact Lg|].
    unfold getDateAndTime. rewrite !length_append, Lg, !L2 by lia.
    reflexivity.
Qed.

Lemma date_text_identifies_the_date_witness :
  String.length (getDate (mkDate 2004 5 27 0 0)) = 11%nat /\
  String.length (getDateAndTime (mkDate 2004 5 27 0 0)) = 16%nat.
Proof.
  apply (date_text_identifies_the_date (mkDate 2004 5 27 0 0)
           (mkDate 2004 5 27 0 0) eq_refl eq_refl).
  cbn. lia.
Defined.

(** X18. Whatever sequence of calls built an engine, its holiday sets
    hold nothing but what valid dates put there: every recurring pair is
    a month from 1 to 12 with a day of that month, and every one-time
    key is the text of a valid date.  The all-(-1) date is in neither. *)
Theorem reachable_holidays_are_valid (w : WorkdayCalendar) :
  reachable w ->
  (forall p, p ∈ recurring_holidays_ (calendar_ w) ->
     1 <= fst p <= 12 /\ 1 <= snd p <= Gregorian.daysInMonth 2024 (fst p)) /\
  (forall k, k ∈ holidays_ (calendar_ w) ->
     exists d, Gregorian.isValidDate d = true /\ k = getDate d) /\
  ((-1, -1) ∉ recurring_holidays_ (calendar_ w)) /\
  (getDate (mkDate (-1) (-1) (-1) (-1) (-1)) ∉ holidays_ (calendar_ w)).
Proof.
  intros Hreach.
  assert (Hinv :
    (forall p, p ∈ recurring_holidays_ (calendar_ w) ->
       1 <= fst p <= 12 /\ 1 <= snd p <= Gregorian.daysInMonth 2024 (fst p)) /\
    (forall k, k ∈ holidays_ (calendar_ w) ->
       exists d, Gregorian.isValidDate d = true /\ k = getDate d)).
  { induction Hreach as [|w start stop _ IH|w date _ IH|w date _ IH].
    - split; intros x Hx; cbn in Hx; exfalso; revert Hx;
        apply not_elem_of_empty.
    - unfold Workday.setWorkdayStartAndStop.
      destruct (Gregorian.isValidDate start); [|exact IH].
      destruct (Gregorian.isValidDate stop); exact IH.
    - unfold Workday.setHoliday, Gregorian.setHoliday. cbn [calendar_].
      destruct (Gregorian.isValidDate date) eqn:Hv; [|exact IH].
      cbn [holidays_ recurring_holidays_]. split; [apply IH|].
      intros k [->%elem_of_singleton | Hk]%elem_of_union;
        [exists date; auto | now apply IH].
    - unfold Workday.setRecurringHoliday, Gregorian.setRecurringHoliday.
      cbn [calendar_].
      destruct (Gregorian.isValidDate date) eqn:Hv; [|exact IH].
      cbn [holidays_ recurring_holidays_]. split; [|apply IH].
      intros p [->%elem_of_singleton | Hp]%elem_of_union; [|now apply IH].
      apply isValidDate_true in Hv as (_ & Hm & Hd & _).
      pose proof (daysInMonth_le_leap (year_ date) (month_ date)).
      unfold getMonth, getDay. cbn [fst snd]. lia. }
  destruct Hinv as [Hrec Hone]. split; [exact Hrec|]. split; [exact Hone|].
  split.
  - intros Hin. apply Hrec in Hin as [Hin _]. cbn [fst] in Hin. lia.
  - intros Hin. apply Hone in Hin as (d & Hv & Hk).
    assert (Hlen : String.length (getDate d) = 11%nat)
      by (rewrite <- Hk; reflexivity).
    assert (Hfirst : Some "-"%char = String.get 2 (getDate d))
      by (rewrite <- Hk; reflexivity).
    apply isValidDate_true in Hv as (Hy & Hm & Hd & _).
    pose proof (daysInMonth_bounds (year_ d) (month_ d)).
    unfold getDate in Hlen.
    rewrite !length_append, !setw_fill0_two_digits in Hlen by lia.
    cbn in Hlen.
    (* the key of the all-(-1) date has 11 characters, the third a minus *)
    assert (L4 : String.length (setw_fill0 4 (show_int (year_ d))) = 4%nat)
      by lia.
    assert (Hdig : exists u, NilEmpty.uint_of_string
                     (setw_fill0 4 (show_int (year_ d))) = Some u).
    { pose proof (digits_value_show_int (year_ d) Hy) as Hs.
      unfold setw_fill0.
      pose proof (digits_value_zeros
                    (4 - String.length (show_int (year_ d)))
                    (show_int (year_ d))) as Hz.
      rewrite Hs in Hz. clear Hs.
      match goal with
      | |- exists u, ?e = Some u => destruct e as [u|]
      end; [eauto|discriminate]. }
    destruct Hdig as [u Hu].
    unfold getDate in Hfirst.
    rewrite <- String.append_correct1 in Hfirst by lia.
    exact (digits_no_minus _ _ Hu 2%nat (eq_sym Hfirst)).
Qed.

Lemma reachable_holidays_are_valid_witness :
  (-1, -1) ∉ recurring_holidays_ (calendar_ Examples.alwaysHoliday).
Proof.
  apply (reachable_holidays_are_valid Examples.alwaysHoliday).
  unfold Examples.alwaysHoliday.
  assert (H : forall l w, reachable w ->
            reachable (List.fold_left Workday.setRecurringHoliday l w)).
  { induction l as [|x l IH]; intros w Hw; [exact Hw|].
    apply IH, reach_setRecurringHoliday, Hw. }
  apply H, reach_setWorkdayStartAndStop, reach_new.
Defined.

(** ** Counting the workdays passed *)

Section CountingFacts.

Import Gregorian Workday.

(** The days among the next [n] that are not holidays. *)
Local Abbreviation workdays_within cal dec c n :=
  (List.length
     (List.filter
        (fun j => match Gregorian.isHoliday cal (Nat.iter j (stepDay dec) c)
                  with Ret false => true | _ => false end)
        (List.seq 1 n))).

Lemma filter_seq_shift (p : nat -> bool) a n k :
  List.filter p (List.seq (k + a) n) =
  List.map (Nat.add k) (List.filter (fun j => p (k + j)%nat) (List.seq a n)).
Proof.
  revert a. induction n as [|n IH]; intros a; [reflexivity|].
  cbn [List.seq List.filter]. replace (S (k + a)) with (k + S a)%nat by lia.
  rewrite IH. destruct (p (k + a)%nat); reflexivity.
Qed.

Lemma incrementWorkDay_counts_one fuel w c dec c' :
  incrementWorkDay fuel w c dec = Ret c' ->
  exists n, c' = Nat.iter n (stepDay dec) c /\
            workdays_within (calendar_ w) dec c n = 1%nat.
Proof.
  unfold incrementWorkDay. intros H.
  destruct (skipHolidays_lands _ _ _ _ _ H) as (n & _ & -> & Hfree & Hbefore).
  exists (S n). rewrite Nat.iter_succ_r. split; [reflexivity|].
  rewrite <- Nat.iter_succ_r in Hfree.
  replace (S n) with (n + 1)%nat by lia.
  rewrite List.seq_app, List.filter_app, List.length_app.
  cbn [List.seq List.filter]. replace (1 + n)%nat with (S n) by lia.
  rewrite Hfree. cbn [List.length].
  assert (Hnone : forall m, (m <= n)%nat ->
            List.filter
              (fun j => match Gregorian.isHoliday (calendar_ w)
                                (Nat.iter j (stepDay dec) c)
                        with Ret false => true | _ => false end)
              (List.seq 1 m) = []).
  { induction m as [|m IHm]; intros Hm; [reflexivity|].
    replace (S m) with (m + 1)%nat by lia.
    rewrite List.seq_app, List.filter_app, IHm by lia.
    cbn [List.seq List.filter List.app]. replace (1 + m)%nat with (S m) by lia.
    rewrite Nat.iter_succ_r, Hbefore by lia. reflexivity. }
  rewrite Hnone by lia. reflexivity.
Qed.

Lemma repeatM_incrementWorkDay_counts fuel w dec k c c' :
  repeatM k (fun d => incrementWorkDay fuel w d dec) c = Ret c' ->
  exists n, c' = Nat.iter n (stepDay dec) c /\
            workdays_within (calendar_ w) dec c n = k.
Proof.
  revert c. induction k as [|k IH]; intros c Hrun.
  - injection Hrun as <-. exists 0%nat. split; reflexivity.
  - cbn [repeatM] in Hrun.
    destruct (incrementWorkDay fuel w c dec) as [c1| |] eqn:E1;
      cbn [mbind outcome_bind] in Hrun; try discriminate.
    destruct (incrementWorkDay_counts_one _ _ _ _ _ E1) as (n1 & -> & Hc1).
    destruct (IH _ Hrun) as (n2 & -> & Hc2).
    exists (n1 + n2)%nat. split.
    + rewrite Nat.add_comm. apply eq_sym, Nat.iter_add.
    + rewrite List.seq_app, List.filter_app, List.length_app, Hc1.
      replace (1 + n1)%nat with (n1 + 1)%nat by lia.
      rewrite filter_seq_shift, List.length_map. rewrite <- Hc2.
      f_equal. f_equal. apply List.filter_ext. intros j.
      replace (n1 + j)%nat with (j + n1)%nat by lia.
      now rewrite Nat.iter_add.
Qed.

End CountingFacts.

(** X19. [incrementWorkWeek], when it returns, has moved over exactly
    five days that are not holidays, the day it lands on included, and
    has kept the time of day. *)
Theorem incrementWorkWeek_five_workdays
  (fuel : nat) (w : WorkdayCalendar) (c c' : Date) (dec : bool) :
  Workday.incrementWorkWeek fuel w c dec = Ret c' ->
  exists n, (5 <= n)%nat /\
    c' = Nat.iter n (Workday.stepDay dec) c /\
    List.length
      (List.filter
         (fun j => match Workday.isHoliday w
                           (Nat.iter j (Workday.stepDay dec) c)
                   with Ret false => true | _ => false end)
         (List.seq 1 n)) = 5%nat /\
    Workday.isHoliday w c' = Ret false /\
    hour_ c' = hour_ c /\ minute_ c' = minute_ c.
Proof.
  unfold Workday.incrementWorkWeek, Workday.isHoliday.
  change (Z.to_nat Workday.WORKWEEK_DURATION) with 5%nat. intros Hrun.
  destruct (repeatM_incrementWorkDay_counts _ _ _ _ _ _ Hrun)
    as (n & -> & Hcount).
  exists n. split.
  - rewrite <- Hcount.
    etransitivity; [apply List.filter_length_le|].
    now rewrite List.length_seq.
  - split; [reflexivity|]. split; [exact Hcount|]. split.
    + cbn [repeatM] in Hrun.
      repeat (destruct (Workday.incrementWorkDay fuel w _ _) as [?c| |] eqn:?E
              in Hrun; cbn [mbind outcome_bind] in Hrun; try discriminate).
      injection Hrun as <-. eapply incrementWorkDay_free. eassumption.
    + apply iter_stepDay_time.
Qed.

Lemma incrementWorkWeek_five_workdays_witness :
  exists n, (5 <= n)%nat /\
    mkDate 2024 7 11 9 0 =
      Nat.iter n (Workday.stepDay false) (mkDate 2024 7 3 9 0).
Proof.
  destruct (incrementWorkWeek_five_workdays 4
              (Workday.setHoliday Examples.eightToFour (mkDate 2024 7 4 0 0))
              (mkDate 2024 7 3 9 0) (mkDate 2024 7 11 9 0) false)
    as (n & Hn & Hc & _); [vm_compute; reflexivity|].
  exists n. split; assumption.
Defined.

(** ** A zero increment outside working hours *)

(** X20. In an engine whose start time is before its stop time, a zero
    increment from a valid date that is not a holiday snaps forward: a
    clock before the start time becomes the start time of the same day,
    and a clock at or after the stop time becomes the start time of the
    next workday. *)
Theorem getWorkdayIncrement_zero_outside_hours
  (w : WorkdayCalendar) (start stop d : Date) (s : bool) (fuel : nat) :
  reachable w ->
  Workday.getWorkdayStart w = Some start ->
  Workday.getWorkdayStop w = Some stop ->
  hour_ start * 60 + minute_ start < hour_ stop * 60 + minute_ stop ->
  Gregorian.isValidDate d = true ->
  Workday.isHoliday w d = Ret false ->
  (hour_ d * 60 + minute_ d < hour_ start * 60 + minute_ start ->
     Workday.getWorkdayIncrement (S fuel) w d (S754_zero s) =
       Ret (Workday.atTimeOf d start)) /\
  (hour_ stop * 60 + minute_ stop <= hour_ d * 60 + minute_ d ->
     Workday.getWorkdayIncrement (S fuel) w d (S754_zero s) =
       (next ← Workday.incrementWorkDay (S fuel) w d false;
        Ret (Workday.atTimeOf next start))).
Proof.
  unfold Workday.getWorkdayStart, Workday.getWorkdayStop, Workday.isHoliday.
  intros Hreach Hstart Hstop Hlt Hvalid Hhol.
  pose proof (reachable_configuration w Hreach) as Hcfg.
  rewrite Hstart, Hstop in Hcfg. destruct Hcfg as (Hvs & Hve & Hdur).
  destruct (convertToMinutes_valid _ Hvs) as [Es Bs].
  destruct (convertToMinutes_valid _ Hve) as [Ee Be].
  destruct (convertToMinutes_valid _ Hvalid) as [Ed Bd].
  pose proof (updateWorkingDuration_minutes start stop Hvs Hve) as Ewd.
  rewrite Z.mod_small in Ewd by lia.
  set (wmin := convertToMinutes
                 (getTime (Workday.updateWorkingDuration start stop))) in *.
  destruct (zero_increment_minutes s wmin ltac:(lia)) as [Hdec Hmin].
  assert (Hrun : Workday.getWorkdayIncrement (S fuel) w d (S754_zero s) =
                 Workday.addRemainingMinutes (S fuel) w start stop 0 d).
  { unfold Workday.getWorkdayIncrement.
    rewrite Hvalid, Hstart, Hstop, Hdur. cbn [negb].
    rewrite Hdec. fold wmin. rewrite Hmin. cbn [mbind outcome_bind].
    unfold Workday.long_div, Workday.long_rem.
    destruct (Z.eqb_spec wmin 0) as [E0|_]; [lia|].
    rewrite Z.quot_0_l by lia. rewrite Z.rem_0_l by lia.
    change (wrap 0) with 0. cbn [mbind outcome_bind].
    change (Z.quot 0 Workday.WORKWEEK_DURATION) with 0.
    change (Z.rem 0 Workday.WORKWEEK_DURATION) with 0.
    change (Z.to_nat 0) with 0%nat.
    cbn [Workday.moveToFirstWorkday]. rewrite Hhol.
    cbn [mbind outcome_bind repeatM]. reflexivity. }
  rewrite Hrun. unfold Workday.addRemainingMinutes. rewrite Es, Ee, Ed.
  assert (Hset : forall c,
            (let current_minutes :=
               convertToMinutes (getTime (Workday.atTimeOf c start)) in
             if int_add current_minutes 0 <=? hour_ stop * 60 + minute_ stop
             then let '(hours, mins) := addMinutes current_minutes 0 in
                  Ret (setDate (Workday.atTimeOf c start)
                         (getYear (Workday.atTimeOf c start))
                         (getMonth (Workday.atTimeOf c start))
                         (getDay (Workday.atTimeOf c start)) hours mins)
             else Diverge) = Ret (Workday.atTimeOf c start)).
  { intros c. cbv zeta.
    change (getTime (Workday.atTimeOf c start)) with (getTime start).
    rewrite Es. rewrite int_add_small
      by (unfold in_int, int_min, int_max; lia).
    rewrite Z.add_0_r.
    destruct (Z.leb_spec (hour_ start * 60 + minute_ start)
                         (hour_ stop * 60 + minute_ stop)); [|lia].
    rewrite <- Es, (addMinutes_zero_valid start Hvs). reflexivity. }
  split; intros Hout.
  - destruct (Z.leb_spec (hour_ stop * 60 + minute_ stop)
                         (hour_ d * 60 + minute_ d)); [lia|].
    destruct (Z.ltb_spec (hour_ d * 60 + minute_ d)
                         (hour_ start * 60 + minute_ start)); [|lia].
    cbn [mbind outcome_bind]. specialize (Hset d). cbv zeta in Hset.
    destruct (_ <=? _); [exact Hset | discriminate].
  - destruct (Z.leb_spec (hour_ stop * 60 + minute_ stop)
                         (hour_ d * 60 + minute_ d)); [|lia].
    destruct (Workday.incrementWorkDay (S fuel) w d false) as [next| |];
      cbn [mbind outcome_bind]; try reflexivity.
    specialize (Hset next). cbv zeta in Hset.
    destruct (_ <=? _); [exact Hset | discriminate].
Qed.

Lemma getWorkdayIncrement_zero_outside_hours_witness :
  Workday.getWorkdayIncrement 1 Examples.eightToFour
    (mkDate 2024 7 1 7 0) (S754_zero false) =
  Ret (Workday.atTimeOf (mkDate 2024 7 1 7 0) Examples.startWorkday).
Proof.
  apply (getWorkdayIncrement_zero_outside_hours Examples.eightToFour
           Examples.startWorkday Examples.stopWorkday (mkDate 2024 7 1 7 0)
           false 0).
  - apply reach_setWorkdayStartAndStop, reach_new.
  - reflexivity.
  - reflexivity.
  - cbn. lia.
  - reflexivity.
  - vm_compute. reflexivity.
  - cbn. lia.
Defined.
